(** * Room coordinator (api/room.ts): shallow embedding and properties

    The Durable Object [Room] of api/room.ts owns one stored record
    ([roomData]), an in-memory registry of sessions ([this.sessions]) and
    reacts to requests ([fetch]) and to the [message] and [close] events of
    the sockets it accepted.

    Modelling choices:
    - the storage slot ['roomData'] is an [option RoomData]; [get] returns a
      fresh copy and [put] stores a copy, so later mutations of the local
      object are visible only through a later [put];
    - a JS object used as a dictionary is a [gmap] of its own properties;
      [connectedUsers] is read and written by name, so what it inherits from
      [Object.prototype] is modelled too ([inherited], [js_set]);
    - [this.sessions] (a JS [Map], iterated in insertion order) is an
      association list keyed by the socket;
    - a socket is a number; [closedSockets] are the sockets whose [send]
      throws;
    - effects are a small state, exception and trace monad; the trace
      records the gate ([blockConcurrencyWhile]), the storage accesses and
      every [send];
    - storage accesses are assumed to succeed, and each handler runs to
      completion before the next event is delivered. *)

From stdpp Require Import gmap strings list fin_maps.

(** ** Data model *)

(** Values held in the open [settings] bag. *)
#[warnings="-register-all"]
Inductive jsval : Type :=
| JNull
| JBool (b : bool)
| JNum (z : Z)
| JStr (s : string)
| JArr (l : list jsval)
| JObj (l : list (string * jsval)).

(** interface RoomData; [connectedUsers] is [None] for a record written
    before the field existed. *)
Record RoomData : Type := mkRoomData {
  key : string;
  users : list string;
  moderator : string;
  connectedUsers : option (gmap string bool);
  settings : gmap string jsval
}.

Definition WebSocket := nat.

(** interface SessionInfo *)
Record SessionInfo : Type := mkSession {
  webSocket : WebSocket;
  roomKey : string;
  userName : string
}.

(** The messages the room sends, by their [type] field. *)
Inductive message : Type :=
| MInitialize (roomData : option RoomData)
| MUserJoined (name : string) (roomData : RoomData)
| MUserConnectionStatus (user : string) (isConnected : bool) (roomData : RoomData)
| MNewModerator (name : string) (roomData : RoomData)
| MSettingsUpdated (s : gmap string jsval) (roomData : RoomData)
| MError (error : string).

Inductive event : Type :=
| EvGateEnter
| EvGateExit
| EvGet
| EvPut (r : RoomData)
| EvAccept (ws : WebSocket)
| EvBroadcast (m : message)
| EvSend (ws : WebSocket) (m : message)
| EvSendFailed (ws : WebSocket) (m : message).

Inductive body : Type :=
| BNone
| BText (t : string)
| BError (e : string)
| BRoom (r : RoomData)
| BSettings (s : gmap string jsval).

Record response : Type := mkResponse { status : nat; payload : body }.

(** The state of one Room instance. *)
Record Room : Type := mkRoom {
  storage : option RoomData;
  sessions : list (WebSocket * SessionInfo);
  closedSockets : gset WebSocket
}.

(** ** The effect monad *)

Inductive outcome (A : Type) : Type :=
| Ret (a : A)
| Throw (err : string).
Arguments Ret {A} a.
Arguments Throw {A} err.

Definition M (A : Type) : Type := Room -> outcome A * Room * list event.

Definition ret {A} (a : A) : M A := fun st => (Ret a, st, []).

Definition bind {A B} (m : M A) (f : A -> M B) : M B :=
  fun st =>
    match m st with
    | (Ret a, st1, t1) =>
        match f a st1 with
        | (o, st2, t2) => (o, st2, t1 ++ t2)
        end
    | (Throw e, st1, t1) => (Throw e, st1, t1)
    end.

Definition throw {A} (e : string) : M A := fun st => (Throw e, st, []).

Definition try_catch {A} (m : M A) (h : string -> M A) : M A :=
  fun st =>
    match m st with
    | (Ret a, st1, t1) => (Ret a, st1, t1)
    | (Throw e, st1, t1) =>
        match h e st1 with
        | (o, st2, t2) => (o, st2, t1 ++ t2)
        end
    end.

Definition emit (e : event) : M unit := fun st => (Ret tt, st, [e]).

Notation "'let*' x := m 'in' k" := (bind m (fun x => k))
  (at level 10, x pattern, m at level 100, k at level 200).
Notation "'run' m 'then' k" := (bind m (fun _ => k))
  (at level 10, m at level 100, k at level 200).

Definition result_of {A} (x : outcome A * Room * list event) : outcome A := x.1.1.
Definition state_of {A} (x : outcome A * Room * list event) : Room := x.1.2.
Definition trace_of {A} (x : outcome A * Room * list event) : list event := x.2.

(** this.state.storage.get('roomData') *)
Definition storage_get : M (option RoomData) :=
  fun st => (Ret (storage st), st, [EvGet]).

(** this.state.storage.put('roomData', r) *)
Definition storage_put (r : RoomData) : M unit :=
  fun st => (Ret tt, mkRoom (Some r) (sessions st) (closedSockets st), [EvPut r]).

(** this.state.blockConcurrencyWhile(callback) *)
Definition blockConcurrencyWhile {A} (callback : M A) : M A :=
  run emit EvGateEnter then
  let* a := callback in
  run emit EvGateExit then
  ret a.

(** webSocket.send(JSON.stringify(m)) *)
Definition ws_send (ws : WebSocket) (m : message) : M unit :=
  fun st =>
    if bool_decide (ws ∈ closedSockets st)
    then (Throw "WebSocket send failed"%string, st, [EvSendFailed ws m])
    else (Ret tt, st, [EvSend ws m]).

(** Map.prototype.set: an existing key keeps its place, a new one goes last. *)
Fixpoint map_set (ws : WebSocket) (s : SessionInfo)
    (l : list (WebSocket * SessionInfo)) : list (WebSocket * SessionInfo) :=
  match l with
  | [] => [(ws, s)]
  | (k, v) :: l' => if bool_decide (k = ws) then (ws, s) :: l' else (k, v) :: map_set ws s l'
  end.

(** Map.prototype.delete *)
Fixpoint map_delete (ws : WebSocket)
    (l : list (WebSocket * SessionInfo)) : list (WebSocket * SessionInfo) :=
  match l with
  | [] => []
  | (k, v) :: l' => if bool_decide (k = ws) then l' else (k, v) :: map_delete ws l'
  end.

Definition sessions_set (ws : WebSocket) (s : SessionInfo) : M unit :=
  fun st => (Ret tt, mkRoom (storage st) (map_set ws s (sessions st)) (closedSockets st), []).

Definition sessions_delete (ws : WebSocket) : M unit :=
  fun st => (Ret tt, mkRoom (storage st) (map_delete ws (sessions st)) (closedSockets st), []).

Definition sessions_values : M (list SessionInfo) :=
  fun st => (Ret (map snd (sessions st)), st, []).

Fixpoint for_each {A} (l : list A) (f : A -> M unit) : M unit :=
  match l with
  | [] => ret tt
  | x :: l' => run f x then for_each l' f
  end.

(** ** Room.broadcast *)

Definition broadcast (m : message) : M unit :=
  run emit (EvBroadcast m) then
  let* ss := sessions_values in
  for_each ss (fun session =>
    try_catch (ws_send (webSocket session) m) (fun _ => ret tt)).

(** ** Record updates written in the handlers *)

(** The property names every plain object inherits from Object.prototype.
    Read through an object that has no own property of that name, each gives
    a function or an object, which counts as true in a condition. *)
Definition prototype_names : list string :=
  ["__proto__"; "constructor"; "toString"; "toLocaleString"; "valueOf";
   "hasOwnProperty"; "isPrototypeOf"; "propertyIsEnumerable";
   "__defineGetter__"; "__defineSetter__"; "__lookupGetter__";
   "__lookupSetter__"]%string.

Definition inherited (k : string) : bool := bool_decide (k ∈ prototype_names).

(** obj[k] = b, for a boolean b. When [k] is __proto__ and the object has no
    own property of that name, the assignment runs the setter inherited from
    Object.prototype, which ignores a boolean: nothing is stored. *)
Definition js_set (k : string) (b : bool) (o : gmap string bool) : gmap string bool :=
  if bool_decide (k = "__proto__"%string) && bool_decide (o !! k = None)
  then o else <[k := b]> o.

(** for (const user of roomData.users) roomData.connectedUsers[user] = false *)
Definition backfill (us : list string) : gmap string bool :=
  foldl (fun cu user => js_set user false cu) ∅ us.

(** if (!roomData.connectedUsers) { roomData.connectedUsers = {}; for ... } *)
Definition reconciled (r : RoomData) : gmap string bool :=
  match connectedUsers r with
  | Some cu => cu
  | None => backfill (users r)
  end.

(** if (!roomData.users.includes(name)) roomData.users.push(name) *)
Definition push_user (name : string) (us : list string) : list string :=
  if bool_decide (name ∈ us) then us else us ++ [name].

(** The record of /join and of handleSession just before it is stored. *)
Definition admitted (name : string) (r : RoomData) : RoomData :=
  mkRoomData (key r) (push_user name (users r)) (moderator r)
    (Some (js_set name true (reconciled r))) (settings r).

(** The record of the close listener just before its first put. *)
Definition departed (name : string) (r : RoomData) : RoomData :=
  mkRoomData (key r) (users r) (moderator r)
    (Some (js_set name false (reconciled r))) (settings r).

(** roomData.connectedUsers[user], read as a condition: the own entry if
    there is one, else what Object.prototype gives under that name. *)
Definition isConnected_in (r : RoomData) (user : string) : bool :=
  match connectedUsers r with
  | Some cu => match cu !! user with Some b => b | None => inherited user end
  | None => false
  end.

(** roomData.users.filter(user => roomData.connectedUsers[user]) *)
Definition connected_candidates (r : RoomData) : list string :=
  List.filter (isConnected_in r) (users r).

Definition with_moderator (m : string) (r : RoomData) : RoomData :=
  mkRoomData (key r) (users r) m (connectedUsers r) (settings r).

(** { ...roomData.settings, ...settings } *)
Definition merge_settings (s p : gmap string jsval) : gmap string jsval := p ∪ s.

Definition with_settings (s : gmap string jsval) (r : RoomData) : RoomData :=
  mkRoomData (key r) (users r) (moderator r) (connectedUsers r) s.

Definition json_error (code : nat) (e : string) : response := mkResponse code (BError e).

(** A JS string used as a condition: only the empty string is falsy. *)
Definition truthy (s : string) : bool := negb (bool_decide (s = ""%string)).

(** ** Room.constructor *)

Definition empty_record : RoomData := mkRoomData "" [] "" (Some ∅) ∅.

Definition constructor : M unit :=
  run (fun st => (Ret tt, mkRoom (storage st) [] (closedSockets st), [])) then
  blockConcurrencyWhile (
    let* roomData := storage_get in
    match roomData with
    | None => storage_put empty_record
    | Some r =>
        match connectedUsers r with
        | None =>
            storage_put (mkRoomData (key r) (users r) (moderator r)
                           (Some (backfill (users r))) (settings r))
        | Some _ => ret tt
        end
    end).

(** ** Room.fetch, one definition per route *)

(** POST /initialize *)
Definition initialize (rk creator : string) : M response :=
  blockConcurrencyWhile (
    let* roomData := storage_get in
    let create :=
      let r := mkRoomData rk [creator] creator (Some {[ creator := true ]}) ∅ in
      run storage_put r then
      ret (mkResponse 200 (BRoom r)) in
    match roomData with
    | None => create
    | Some r =>
        if truthy (key r) then ret (json_error 400 "Room already exists")
        else create
    end).

(** POST /join *)
Definition join (name : string) : M response :=
  blockConcurrencyWhile (
    let* roomData := storage_get in
    match roomData with
    | None => ret (json_error 404 "Room not found")
    | Some r =>
        if negb (truthy (key r)) then ret (json_error 404 "Room not found")
        else
          let r' := admitted name r in
          run storage_put r' then
          run broadcast (MUserJoined name r') then
          ret (mkResponse 200 (BRoom r'))
    end).

(** GET /settings *)
Definition getSettings : M response :=
  blockConcurrencyWhile (
    let* roomData := storage_get in
    match roomData with
    | None => ret (json_error 404 "Room not found")
    | Some r =>
        if negb (truthy (key r)) then ret (json_error 404 "Room not found")
        else ret (mkResponse 200 (BSettings (settings r)))
    end).

(** PUT /settings *)
Definition putSettings (name : string) (p : gmap string jsval) : M response :=
  blockConcurrencyWhile (
    let* roomData := storage_get in
    match roomData with
    | None => ret (json_error 404 "Room not found")
    | Some r =>
        if negb (truthy (key r)) then ret (json_error 404 "Room not found")
        else if negb (bool_decide (moderator r = name))
        then ret (json_error 403 "Only the moderator can update settings")
        else
          let r' := with_settings (merge_settings (settings r) p) r in
          run storage_put r' then
          run broadcast (MSettingsUpdated (settings r') r') then
          ret (mkResponse 200 (BSettings (settings r')))
    end).

(** ** Room.handleSession, up to the registration of the listeners *)

Definition handleSession (ws : WebSocket) (rk name : string) : M unit :=
  run sessions_set ws (mkSession ws rk name) then
  run emit (EvAccept ws) then
  run blockConcurrencyWhile (
    let* roomData := storage_get in
    match roomData with
    | Some r =>
        let r' := admitted name r in
        run storage_put r' then
        broadcast (MUserConnectionStatus name true r')
    | None => ret tt
    end) then
  let* roomData := storage_get in
  ws_send ws (MInitialize roomData).

(** ** Room.handleUpdateSettings *)

Definition handleUpdateSettings (name : string) (p : gmap string jsval) : M unit :=
  blockConcurrencyWhile (
    let* roomData := storage_get in
    match roomData with
    | None => ret tt
    | Some r =>
        if negb (bool_decide (moderator r = name)) then ret tt
        else
          let r' := with_settings (merge_settings (settings r) p) r in
          run storage_put r' then
          broadcast (MSettingsUpdated (settings r') r')
    end).

(** What the [message] listener finds in a message, up to the test of
    [data.type]:
    - [InMalformed err]: decoding or JSON.parse throws, with message [err];
    - [InNull err]: the text parses to null, so that reading [data.type]
      throws a TypeError, with message [err];
    - [InUpdateSettings p]: the value has type 'updateSettings'; [p] holds
      the own enumerable properties of [data.settings] (none when it is
      missing);
    - [InOther]: any other value. *)
Inductive incoming : Type :=
| InMalformed (err : string)
| InUpdateSettings (p : gmap string jsval)
| InOther
| InNull (err : string).

(** The [message] listener registered by handleSession(ws, _, name). *)
Definition onMessage (ws : WebSocket) (name : string) (msg : incoming) : M unit :=
  try_catch
    match msg with
    | InMalformed err => throw err
    | InNull err => throw err
    | InUpdateSettings p => handleUpdateSettings name p
    | InOther => ret tt
    end
    (fun err => ws_send ws (MError err)).

(** The [close] listener registered by handleSession(ws, _, name). *)
Definition onClose (ws : WebSocket) (name : string) : M unit :=
  run sessions_delete ws then
  let* ss := sessions_values in
  let stillConnected := existsb (fun s => bool_decide (userName s = name)) ss in
  if negb stillConnected then
    blockConcurrencyWhile (
      let* roomData := storage_get in
      match roomData with
      | Some r =>
          let r1 := departed name r in
          run storage_put r1 then
          run broadcast (MUserConnectionStatus name false r1) then
          if bool_decide (name = moderator r1) then
            match connected_candidates r1 with
            | c :: _ =>
                let r2 := with_moderator c r1 in
                run storage_put r2 then
                broadcast (MNewModerator (moderator r2) r2)
            | [] => ret tt
            end
          else ret tt
      | None => ret tt
      end)
  else ret tt.

(** ** Room.fetch *)

(** A request as [fetch] reads it. For an upgrade request, [server] is the
    server end of the pair that [new WebSocketPair()] returns. *)
Inductive request : Type :=
| ReqUpgrade (room name : option string) (server : WebSocket)
| ReqInitialize (rk creator : string)
| ReqJoin (name : string)
| ReqGetSettings
| ReqPutSettings (name : string) (p : gmap string jsval)
| ReqOther.

Definition present (o : option string) : bool :=
  match o with Some s => truthy s | None => false end.

Definition fetch (req : request) : M response :=
  match req with
  | ReqUpgrade room name server =>
      if negb (present room) || negb (present name)
      then ret (mkResponse 400 (BText "Missing room key or user name"))
      else
        run handleSession server (default ""%string room) (default ""%string name) then
        ret (mkResponse 101 BNone)
  | ReqInitialize rk creator => initialize rk creator
  | ReqJoin name => join name
  | ReqGetSettings => getSettings
  | ReqPutSettings name p => putSettings name p
  | ReqOther => ret (mkResponse 404 (BText "Not found"))
  end.

(** ** Reading traces *)

(** What one [send] leaves in the trace. *)
Definition sent (closed : gset WebSocket) (ws : WebSocket) (m : message) : event :=
  if bool_decide (ws ∈ closed) then EvSendFailed ws m else EvSend ws m.

(** What one iteration of the loop of [broadcast] leaves in the trace. *)
Definition deliver (closed : gset WebSocket) (m : message)
    (s : WebSocket * SessionInfo) : event :=
  sent closed (webSocket s.2) m.

(** Shorthands for the states and records the handlers produce. *)
Definition stored (r : RoomData) (st : Room) : Room :=
  mkRoom (Some r) (sessions st) (closedSockets st).

Definition created (rk creator : string) : RoomData :=
  mkRoomData rk [creator] creator (Some {[ creator := true ]}) ∅.

Definition updated (p : gmap string jsval) (r : RoomData) : RoomData :=
  with_settings (merge_settings (settings r) p) r.

Definition registered (ws : WebSocket) (rk name : string) (st : Room) : Room :=
  mkRoom (storage st) (map_set ws (mkSession ws rk name) (sessions st)) (closedSockets st).

Definition unregistered (ws : WebSocket) (st : Room) : Room :=
  mkRoom (storage st) (map_delete ws (sessions st)) (closedSockets st).

(** Array.from(this.sessions.values()).some(s => s.userName === userName) *)
Definition stillConnected (name : string) (l : list (WebSocket * SessionInfo)) : bool :=
  existsb (fun s => bool_decide (userName s = name)) (map snd l).

(** The record left by the close listener of the last session of [name]. *)
Definition succeeded (name : string) (r : RoomData) : RoomData :=
  if bool_decide (name = moderator r) then
    match connected_candidates (departed name r) with
    | c :: _ => with_moderator c (departed name r)
    | [] => departed name r
    end
  else departed name r.

(** The part of its trace that hands the moderator role over. *)
Definition handover (name : string) (r : RoomData)
    (l : list (WebSocket * SessionInfo)) (closed : gset WebSocket) : list event :=
  if bool_decide (name = moderator r) then
    match connected_candidates (departed name r) with
    | c :: _ =>
        let r2 := with_moderator c (departed name r) in
        [EvPut r2; EvBroadcast (MNewModerator c r2)]
        ++ map (deliver closed (MNewModerator c r2)) l
    | [] => []
    end
  else [].

(** [initialize] and [error] are sent to one socket only; every other
    message is sent by [broadcast]. *)
Definition fanned_out (m : message) : bool :=
  match m with
  | MInitialize _ | MError _ => false
  | _ => true
  end.

Definition broadcast_event (e : event) : bool :=
  match e with
  | EvBroadcast _ => true
  | EvSend _ m | EvSendFailed _ m => fanned_out m
  | _ => false
  end.

(** [broadcasts_when want inside t]: reading [t] from a point where the gate
    is held iff [inside], every event of a broadcast happens while the gate
    is held iff [want]. *)
Fixpoint broadcasts_when (want inside : bool) (t : list event) : bool :=
  match t with
  | [] => true
  | EvGateEnter :: t' => broadcasts_when want true t'
  | EvGateExit :: t' => broadcasts_when want false t'
  | e :: t' =>
      (if broadcast_event e then bool_decide (inside = want) else true)
      && broadcasts_when want inside t'
  end.

Definition status_broadcast (e : event) : bool :=
  match e with
  | EvBroadcast (MUserConnectionStatus _ _ _) => true
  | _ => false
  end.

Definition newModerator_broadcast (e : event) : bool :=
  match e with
  | EvBroadcast (MNewModerator _ _) => true
  | _ => false
  end.

Definition puts (t : list event) : list RoomData :=
  omap (fun e => match e with EvPut r => Some r | _ => None end) t.

(** The sockets registered for a user, in registration order. *)
Definition sockets_of (name : string) (l : list (WebSocket * SessionInfo)) : list WebSocket :=
  map fst (List.filter (fun s => bool_decide (userName s.2 = name)) l).

(** ** Operations on a room, as one type *)

Inductive operation : Type :=
| OpCreate (rk creator : string)
| OpJoin (name : string)
| OpConnect (ws : WebSocket) (rk name : string)
| OpDisconnect (ws : WebSocket) (name : string)
| OpUpdateSettingsRequest (name : string) (p : gmap string jsval)
| OpUpdateSettingsChannel (ws : WebSocket) (name : string) (p : gmap string jsval)
| OpGetSettings.

Definition forget {A} (m : M A) : M unit := let* _ := m in ret tt.

Definition perform (op : operation) : M unit :=
  match op with
  | OpCreate rk creator => forget (initialize rk creator)
  | OpJoin name => forget (join name)
  | OpConnect ws rk name => handleSession ws rk name
  | OpDisconnect ws name => onClose ws name
  | OpUpdateSettingsRequest name p => forget (putSettings name p)
  | OpUpdateSettingsChannel ws name p => onMessage ws name (InUpdateSettings p)
  | OpGetSettings => forget getSettings
  end.

(** The operations that notify the sessions. *)
Definition notifies (op : operation) : bool :=
  match op with
  | OpJoin _ | OpConnect _ _ _ | OpDisconnect _ _
  | OpUpdateSettingsRequest _ _ | OpUpdateSettingsChannel _ _ _ => true
  | _ => false
  end.

(** The name an operation may append to [users]. *)
Definition newcomer (op : operation) : option string :=
  match op with
  | OpJoin name | OpConnect _ _ name => Some name
  | _ => None
  end.

Fixpoint perform_all (ops : list operation) (st : Room) : Room :=
  match ops with
  | [] => st
  | op :: ops' => perform_all ops' (state_of (perform op st))
  end.

(** roomData.connectedUsers[user], as stored *)
Definition tracked (r : RoomData) (user : string) : option bool :=
  match connectedUsers r with
  | Some cu => cu !! user
  | None => None
  end.

(** ** Sample rooms *)

Definition abc_record : RoomData :=
  mkRoomData "ROOM01" ["A"; "B"; "C"] "A"
    (Some (<["A" := true]> (<["B" := true]> (<["C" := true]> ∅)))) ∅.

Definition abc_sessions : list (WebSocket * SessionInfo) :=
  [(1, mkSession 1 "ROOM01" "A"); (2, mkSession 2 "ROOM01" "B"); (3, mkSession 3 "ROOM01" "C")].

Definition abc_room : Room := mkRoom (Some abc_record) abc_sessions ∅.

(** B has two tabs open. *)
Definition two_tabs_room : Room :=
  mkRoom (Some abc_record) (abc_sessions ++ [(4, mkSession 4 "ROOM01" "B")]) ∅.

(** The socket of B is broken. *)
Definition broken_room : Room := mkRoom (Some abc_record) abc_sessions {[ 2 ]}.

(** A record whose map lacks the entry of B. *)
Definition partial_record : RoomData :=
  mkRoomData "ROOM01" ["A"; "B"] "A" (Some (<["A" := true]> ∅)) ∅.

Definition partial_room : Room := mkRoom (Some partial_record) [] ∅.

(** A record written before connectedUsers existed. *)
Definition legacy_record : RoomData :=
  mkRoomData "ROOM01" ["A"; "B"] "A" None ∅.

Definition legacy_room : Room := mkRoom (Some legacy_record) [(1, mkSession 1 "ROOM01" "B")] ∅.

(** A room that was activated and never created. *)
Definition blank_room : Room := mkRoom (Some empty_record) [] ∅.

Definition x1_settings : gmap string jsval := <["x" := JNum 1]> ∅.

Definition x1_room : Room :=
  mkRoom (Some (with_settings x1_settings abc_record)) abc_sessions ∅.

(** ** Everything a room reacts to *)

(** A request, a message on an accepted socket, or the close of one. The
    listeners of a socket carry the name given to handleSession. *)
Inductive stimulus : Type :=
| Request (req : request)
| Message (ws : WebSocket) (name : string) (msg : incoming)
| Close (ws : WebSocket) (name : string).

Definition react (s : stimulus) : M unit :=
  match s with
  | Request req => forget (fetch req)
  | Message ws name msg => onMessage ws name msg
  | Close ws name => onClose ws name
  end.

Fixpoint react_all (l : list stimulus) (st : Room) : Room :=
  match l with
  | [] => st
  | s :: l' => react_all l' (state_of (react s st))
  end.

(** The state a stimulus leads to, written as a function of the state. *)
Definition next (s : stimulus) (st : Room) : Room :=
  match s with
  | Request (ReqUpgrade room name server) =>
      if present room && present name then
        let st1 := registered server (default ""%string room) (default ""%string name) st in
        match storage st with
        | Some r => stored (admitted (default ""%string name) r) st1
        | None => st1
        end
      else st
  | Request (ReqInitialize rk creator) =>
      match storage st with
      | Some r => if truthy (key r) then st else stored (created rk creator) st
      | None => stored (created rk creator) st
      end
  | Request (ReqJoin name) =>
      match storage st with
      | Some r => if truthy (key r) then stored (admitted name r) st else st
      | None => st
      end
  | Request (ReqPutSettings name p) =>
      match storage st with
      | Some r =>
          if truthy (key r) && bool_decide (moderator r = name)
          then stored (updated p r) st else st
      | None => st
      end
  | Request ReqGetSettings | Request ReqOther => st
  | Message _ name (InUpdateSettings p) =>
      match storage st with
      | Some r => if bool_decide (moderator r = name) then stored (updated p r) st else st
      | None => st
      end
  | Message _ _ _ => st
  | Close ws name =>
      if stillConnected name (map_delete ws (sessions st)) then unregistered ws st
      else
        match storage st with
        | Some r => stored (succeeded name r) (unregistered ws st)
        | None => unregistered ws st
        end
  end.

(** What the handlers keep true of the stored record. *)
Definition record_ok (r : RoomData) : Prop :=
  NoDup (users r)
  ∧ (forall u, u ∈ users r -> u ≠ "__proto__"%string -> is_Some (tracked r u))
  ∧ (key r ≠ ""%string -> moderator r ∈ users r).

(** What they keep true of the registry: one entry per socket, filed under
    the socket it holds. *)
Definition registry_wf (l : list (WebSocket * SessionInfo)) : Prop :=
  NoDup (map fst l) ∧ Forall (fun s => webSocket s.2 = s.1) l.

(** [gate_discipline inside t]: reading [t] from a point where the gate is
    held iff [inside], the gate is never entered while held nor left while
    free, every put happens while it is held, and it is free at the end. *)
Fixpoint gate_discipline (inside : bool) (t : list event) : bool :=
  match t with
  | [] => negb inside
  | EvGateEnter :: t' => negb inside && gate_discipline true t'
  | EvGateExit :: t' => inside && gate_discipline false t'
  | EvPut _ :: t' => inside && gate_discipline inside t'
  | _ :: t' => gate_discipline inside t'
  end.

(** The roomData field of a message. *)
Definition carried (m : message) : option RoomData :=
  match m with
  | MInitialize roomData => roomData
  | MUserJoined _ roomData => Some roomData
  | MUserConnectionStatus _ _ roomData => Some roomData
  | MNewModerator _ roomData => Some roomData
  | MSettingsUpdated _ roomData => Some roomData
  | MError _ => None
  end.

(** [fresh_payloads cur t]: reading [t] from a point where the stored record
    is [cur], every message that is broadcast or sent carries the record
    stored at that point (an error message carries none). *)
Fixpoint fresh_payloads (cur : option RoomData) (t : list event) : Prop :=
  match t with
  | [] => True
  | EvPut r :: t' => fresh_payloads (Some r) t'
  | EvBroadcast m :: t' | EvSend _ m :: t' | EvSendFailed _ m :: t' =>
      match m with MError _ => True | _ => carried m = cur end
      ∧ fresh_payloads cur t'
  | _ :: t' => fresh_payloads cur t'
  end.

(** ** api/index.ts: the worker in front of the rooms *)

(** What [request.json()] gives: a rejection, or the fields the routes read. *)
Inductive api_body : Type :=
| BodyUnreadable (err : string)
| BodyJson (name room : option string) (sett : option (gmap string jsval)).

(** A request as handleRequest reads it. *)
Record api_request : Type := mkApiRequest {
  pathname : string;
  method : string;
  upgradeHeader : option string;
  param_room : option string;
  param_name : option string;
  param_roomKey : option string;
  json_body : api_body
}.

(** What the worker does with a request: answer it, hand a request to the
    room object of an id, or hand it to the static assets. *)
Inductive routed : Type :=
| Reply (r : response)
| ToRoom (roomId : string) (req : request)
| ToAssets.

(** s.substring(n) *)
Fixpoint string_drop (n : nat) (s : string) : string :=
  match n, s with
  | O, _ => s
  | S n', String _ s' => string_drop n' s'
  | S _, EmptyString => EmptyString
  end.

(** getRoomId; [toLowerCase] stands for String.prototype.toLowerCase. *)
Definition getRoomId (toLowerCase : string -> string) (k : string) : string :=
  ("room-" +:+ toLowerCase k)%string.

(** handleApiRequest; [generated] is what generateRoomKey() returns when it
    is called. *)
Definition handleApiRequest (toLowerCase : string -> string) (generated : string)
    (req : api_request) : outcome routed :=
  let path := string_drop 5 (pathname req) in
  if bool_decide (path = "rooms"%string) && bool_decide (method req = "POST"%string) then
    match json_body req with
    | BodyUnreadable err => Throw err
    | BodyJson name _ _ =>
        if negb (present name) then Ret (Reply (json_error 400 "Name is required"))
        else Ret (ToRoom (getRoomId toLowerCase generated)
                    (ReqInitialize generated (default ""%string name)))
    end
  else if bool_decide (path = "rooms/join"%string) && bool_decide (method req = "POST"%string) then
    match json_body req with
    | BodyUnreadable err => Throw err
    | BodyJson name room _ =>
        if negb (present name) || negb (present room)
        then Ret (Reply (json_error 400 "Name and room key are required"))
        else Ret (ToRoom (getRoomId toLowerCase (default ""%string room))
                    (ReqJoin (default ""%string name)))
    end
  else if bool_decide (path = "rooms/settings"%string) && bool_decide (method req = "GET"%string) then
    if negb (present (param_roomKey req))
    then Ret (Reply (json_error 400 "Room key is required"))
    else Ret (ToRoom (getRoomId toLowerCase (default ""%string (param_roomKey req)))
                ReqGetSettings)
  else if bool_decide (path = "rooms/settings"%string) && bool_decide (method req = "PUT"%string) then
    match json_body req with
    | BodyUnreadable err => Throw err
    | BodyJson name room sett =>
        match sett with
        | Some p =>
            if negb (present name) || negb (present room)
            then Ret (Reply (json_error 400 "Name, room key, and settings are required"))
            else Ret (ToRoom (getRoomId toLowerCase (default ""%string room))
                        (ReqPutSettings (default ""%string name) p))
        | None => Ret (Reply (json_error 400 "Name, room key, and settings are required"))
        end
    end
  else Ret (Reply (json_error 404 "Not found")).

(** handleRequest; [server] is the socket the room will accept if the
    request is an upgrade. *)
Definition handleRequest (toLowerCase : string -> string) (generated : string)
    (server : WebSocket) (req : api_request) : outcome routed :=
  if String.prefix "/api/" (pathname req) then handleApiRequest toLowerCase generated req
  else if bool_decide (pathname req = "/ws"%string) then
    if negb (bool_decide (upgradeHeader req = Some "websocket"%string))
    then Ret (Reply (mkResponse 400 (BText "Expected WebSocket")))
    else if negb (present (param_room req)) || negb (present (param_name req))
    then Ret (Reply (mkResponse 400 (BText "Missing room key or user name")))
    else Ret (ToRoom (getRoomId toLowerCase (default ""%string (param_room req)))
                (ReqUpgrade (param_room req) (param_name req) server))
  else Ret ToAssets.

(** * Properties *)

(** ** The loop of broadcast *)

Lemma guarded_send (closed : gset WebSocket) (m : message)
    (k : WebSocket) (s : SessionInfo) (st : Room) :
  closedSockets st = closed ->
  try_catch (ws_send (webSocket s) m) (fun _ => ret tt) st
  = (Ret tt, st, [deliver closed m (k, s)]).
Proof.
  intros <-. unfold try_catch, ws_send, deliver, sent. cbn [snd].
  destruct (bool_decide (webSocket s ∈ closedSockets st)); reflexivity.
Qed.

Lemma for_each_send (closed : gset WebSocket) (m : message)
    (l : list (WebSocket * SessionInfo)) (st : Room) :
  closedSockets st = closed ->
  for_each (map snd l)
    (fun session => try_catch (ws_send (webSocket session) m) (fun _ => ret tt)) st
  = (Ret tt, st, map (deliver closed m) l).
Proof.
  intros Hc. induction l as [|[k s] l IH]; [reflexivity|].
  cbn [map for_each snd]. unfold bind at 1.
  rewrite (guarded_send closed m k s st Hc). cbv beta iota.
  rewrite IH. reflexivity.
Qed.

Lemma broadcast_run (m : message) (st : Room) :
  broadcast m st
  = (Ret tt, st, EvBroadcast m :: map (deliver (closedSockets st) m) (sessions st)).
Proof.
  unfold broadcast, bind, emit, sessions_values.
  rewrite (for_each_send (closedSockets st)); reflexivity.
Qed.

(** ** What each handler does, as equations *)

Ltac run_handler :=
  unfold blockConcurrencyWhile, forget, bind, emit, storage_get, storage_put, ret,
    throw, sessions_set, sessions_delete, sessions_values;
  cbv beta iota zeta; cbn [storage sessions closedSockets].

Ltac advance := cbn [negb storage sessions closedSockets]; cbv beta iota zeta.

Ltac tidy :=
  repeat first [rewrite app_nil_r | rewrite <- app_assoc | progress cbn [app]];
  try reflexivity.

Lemma truthy_true (s : string) : s ≠ ""%string -> truthy s = true.
Proof. intros H. unfold truthy. rewrite bool_decide_eq_false_2; done. Qed.

Lemma truthy_false (s : string) : s = ""%string -> truthy s = false.
Proof. intros ->. reflexivity. Qed.

Lemma initialize_taken (rk creator : string) (st : Room) (r : RoomData) :
  storage st = Some r -> key r ≠ ""%string ->
  initialize rk creator st
  = (Ret (json_error 400 "Room already exists"), st, [EvGateEnter; EvGet; EvGateExit]).
Proof.
  intros Hst Hk. unfold initialize. run_handler.
  rewrite Hst, (truthy_true _ Hk). reflexivity.
Qed.

Lemma initialize_fresh (rk creator : string) (st : Room) :
  (forall r, storage st = Some r -> key r = ""%string) ->
  initialize rk creator st
  = (Ret (mkResponse 200 (BRoom (created rk creator))),
     stored (created rk creator) st,
     [EvGateEnter; EvGet; EvPut (created rk creator); EvGateExit]).
Proof.
  intros Hst. unfold initialize. run_handler.
  destruct (storage st) as [r|]; [rewrite (truthy_false _ (Hst r eq_refl))|]; reflexivity.
Qed.

Lemma join_run (name : string) (st : Room) (r : RoomData) :
  storage st = Some r -> key r ≠ ""%string ->
  join name st
  = (Ret (mkResponse 200 (BRoom (admitted name r))),
     stored (admitted name r) st,
     [EvGateEnter; EvGet; EvPut (admitted name r);
      EvBroadcast (MUserJoined name (admitted name r))]
     ++ map (deliver (closedSockets st) (MUserJoined name (admitted name r))) (sessions st)
     ++ [EvGateExit]).
Proof.
  intros Hst Hk. unfold join. run_handler.
  rewrite Hst, (truthy_true _ Hk). advance. rewrite broadcast_run. tidy.
Qed.

Lemma join_not_found (name : string) (st : Room) :
  (forall r, storage st = Some r -> key r = ""%string) ->
  join name st = (Ret (json_error 404 "Room not found"), st, [EvGateEnter; EvGet; EvGateExit]).
Proof.
  intros Hst. unfold join. run_handler.
  destruct (storage st) as [r|]; [rewrite (truthy_false _ (Hst r eq_refl))|]; reflexivity.
Qed.

Lemma getSettings_run (st : Room) (r : RoomData) :
  storage st = Some r -> key r ≠ ""%string ->
  getSettings st
  = (Ret (mkResponse 200 (BSettings (settings r))), st, [EvGateEnter; EvGet; EvGateExit]).
Proof.
  intros Hst Hk. unfold getSettings. run_handler.
  rewrite Hst, (truthy_true _ Hk). reflexivity.
Qed.

Lemma putSettings_run (name : string) (p : gmap string jsval) (st : Room) (r : RoomData) :
  storage st = Some r -> key r ≠ ""%string -> moderator r = name ->
  putSettings name p st
  = (Ret (mkResponse 200 (BSettings (merge_settings (settings r) p))),
     stored (updated p r) st,
     [EvGateEnter; EvGet; EvPut (updated p r);
      EvBroadcast (MSettingsUpdated (merge_settings (settings r) p) (updated p r))]
     ++ map (deliver (closedSockets st)
               (MSettingsUpdated (merge_settings (settings r) p) (updated p r)))
          (sessions st)
     ++ [EvGateExit]).
Proof.
  intros Hst Hk Hm. unfold putSettings. run_handler.
  rewrite Hst, (truthy_true _ Hk), (bool_decide_eq_true_2 _ Hm).
  advance. rewrite broadcast_run. tidy.
Qed.

Lemma putSettings_forbidden (name : string) (p : gmap string jsval) (st : Room) (r : RoomData) :
  storage st = Some r -> key r ≠ ""%string -> moderator r ≠ name ->
  putSettings name p st
  = (Ret (json_error 403 "Only the moderator can update settings"), st,
     [EvGateEnter; EvGet; EvGateExit]).
Proof.
  intros Hst Hk Hm. unfold putSettings. run_handler.
  rewrite Hst, (truthy_true _ Hk), (bool_decide_eq_false_2 _ Hm). reflexivity.
Qed.

Lemma putSettings_not_found (name : string) (p : gmap string jsval) (st : Room) :
  (forall r, storage st = Some r -> key r = ""%string) ->
  putSettings name p st
  = (Ret (json_error 404 "Room not found"), st, [EvGateEnter; EvGet; EvGateExit]).
Proof.
  intros Hst. unfold putSettings. run_handler.
  destruct (storage st) as [r|]; [rewrite (truthy_false _ (Hst r eq_refl))|]; reflexivity.
Qed.

Lemma handleUpdateSettings_run (name : string) (p : gmap string jsval) (st : Room) (r : RoomData) :
  storage st = Some r -> moderator r = name ->
  handleUpdateSettings name p st
  = (Ret tt, stored (updated p r) st,
     [EvGateEnter; EvGet; EvPut (updated p r);
      EvBroadcast (MSettingsUpdated (merge_settings (settings r) p) (updated p r))]
     ++ map (deliver (closedSockets st)
               (MSettingsUpdated (merge_settings (settings r) p) (updated p r)))
          (sessions st)
     ++ [EvGateExit]).
Proof.
  intros Hst Hm. unfold handleUpdateSettings. run_handler.
  rewrite Hst, (bool_decide_eq_true_2 _ Hm).
  advance. rewrite broadcast_run. tidy.
Qed.

Lemma handleUpdateSettings_dropped (name : string) (p : gmap string jsval) (st : Room) :
  (forall r, storage st = Some r -> moderator r ≠ name) ->
  handleUpdateSettings name p st = (Ret tt, st, [EvGateEnter; EvGet; EvGateExit]).
Proof.
  intros Hst. unfold handleUpdateSettings. run_handler.
  destruct (storage st) as [r|]; [|reflexivity].
  rewrite (bool_decide_eq_false_2 _ (Hst r eq_refl)). reflexivity.
Qed.

Lemma ws_send_run (ws : WebSocket) (m : message) (st : Room) :
  ws_send ws m st
  = (if bool_decide (ws ∈ closedSockets st)
     then Throw "WebSocket send failed"%string else Ret tt,
     st, [sent (closedSockets st) ws m]).
Proof.
  unfold ws_send, sent. destruct (bool_decide (ws ∈ closedSockets st)); reflexivity.
Qed.

Lemma handleSession_run (ws : WebSocket) (rk name : string) (st : Room) (r : RoomData) :
  storage st = Some r ->
  handleSession ws rk name st
  = (if bool_decide (ws ∈ closedSockets st)
     then Throw "WebSocket send failed"%string else Ret tt,
     stored (admitted name r) (registered ws rk name st),
     [EvAccept ws; EvGateEnter; EvGet; EvPut (admitted name r);
      EvBroadcast (MUserConnectionStatus name true (admitted name r))]
     ++ map (deliver (closedSockets st) (MUserConnectionStatus name true (admitted name r)))
          (map_set ws (mkSession ws rk name) (sessions st))
     ++ [EvGateExit; EvGet;
         sent (closedSockets st) ws (MInitialize (Some (admitted name r)))]).
Proof.
  intros Hst. unfold handleSession. run_handler. rewrite Hst. advance.
  rewrite broadcast_run. advance. rewrite ws_send_run. advance.
  destruct (bool_decide (ws ∈ closedSockets st)); tidy.
Qed.

Lemma handleSession_absent (ws : WebSocket) (rk name : string) (st : Room) :
  storage st = None ->
  handleSession ws rk name st
  = (if bool_decide (ws ∈ closedSockets st)
     then Throw "WebSocket send failed"%string else Ret tt,
     registered ws rk name st,
     [EvAccept ws; EvGateEnter; EvGet; EvGateExit; EvGet;
      sent (closedSockets st) ws (MInitialize None)]).
Proof.
  intros Hst. unfold handleSession. run_handler. rewrite Hst. advance.
  rewrite ws_send_run. advance. unfold registered. rewrite Hst.
  destruct (bool_decide (ws ∈ closedSockets st)); tidy.
Qed.

Lemma onClose_other_sessions (ws : WebSocket) (name : string) (st : Room) :
  stillConnected name (map_delete ws (sessions st)) = true ->
  onClose ws name st = (Ret tt, unregistered ws st, []).
Proof.
  intros Hs. unfold onClose. run_handler.
  unfold stillConnected in Hs. rewrite Hs. reflexivity.
Qed.

Lemma onClose_last (ws : WebSocket) (name : string) (st : Room) (r : RoomData) :
  stillConnected name (map_delete ws (sessions st)) = false ->
  storage st = Some r ->
  onClose ws name st
  = (Ret tt, stored (succeeded name r) (unregistered ws st),
     [EvGateEnter; EvGet; EvPut (departed name r);
      EvBroadcast (MUserConnectionStatus name false (departed name r))]
     ++ map (deliver (closedSockets st) (MUserConnectionStatus name false (departed name r)))
          (map_delete ws (sessions st))
     ++ handover name r (map_delete ws (sessions st)) (closedSockets st)
     ++ [EvGateExit]).
Proof.
  intros Hs Hst. unfold onClose. run_handler.
  unfold stillConnected in Hs. rewrite Hs, Hst. advance.
  rewrite broadcast_run. advance.
  unfold succeeded, handover. cbn [moderator departed].
  destruct (bool_decide (name = moderator r)); [|tidy].
  destruct (connected_candidates (departed name r)) as [|c cs]; [tidy|].
  advance. rewrite broadcast_run. advance. tidy.
Qed.

Lemma onClose_absent (ws : WebSocket) (name : string) (st : Room) :
  stillConnected name (map_delete ws (sessions st)) = false ->
  storage st = None ->
  onClose ws name st = (Ret tt, unregistered ws st, [EvGateEnter; EvGet; EvGateExit]).
Proof.
  intros Hs Hst. unfold onClose. run_handler.
  unfold stillConnected in Hs. unfold unregistered. rewrite Hs, Hst. reflexivity.
Qed.

(** ** The registry *)

Lemma sockets_of_keys (name : string) (l : list (WebSocket * SessionInfo)) (ws : WebSocket) :
  ws ∈ sockets_of name l -> ws ∈ map fst l.
Proof.
  unfold sockets_of. induction l as [|[k s] l IH]; cbn; [done|].
  destruct (bool_decide (userName s = name)); cbn; set_solver.
Qed.

Lemma sockets_of_delete_fresh (name : string) (l : list (WebSocket * SessionInfo)) (ws : WebSocket) :
  ws ∉ map fst l ->
  List.filter (fun k => negb (bool_decide (k = ws))) (sockets_of name l) = sockets_of name l.
Proof.
  unfold sockets_of. induction l as [|[k s] l IH]; cbn; [done|]. intros Hn.
  assert (k ≠ ws ∧ ws ∉ map fst l) as [Hk Hl] by set_solver.
  destruct (bool_decide (userName s = name)); cbn; [|by apply IH].
  rewrite (bool_decide_eq_false_2 _ Hk). cbn. by rewrite IH.
Qed.

Lemma sockets_of_delete (name : string) (l : list (WebSocket * SessionInfo)) (ws : WebSocket) :
  NoDup (map fst l) ->
  sockets_of name (map_delete ws l)
  = List.filter (fun k => negb (bool_decide (k = ws))) (sockets_of name l).
Proof.
  induction l as [|[k s] l IH]; [done|].
  cbn [map fst]. intros [Hk Hl]%NoDup_cons. cbn [map_delete].
  destruct (decide (k = ws)) as [->|Hne].
  - rewrite bool_decide_eq_true_2 by done.
    unfold sockets_of at 2. cbn [List.filter snd].
    destruct (bool_decide (userName s = name)); cbn [map fst List.filter].
    + rewrite bool_decide_eq_true_2 by done. cbn [negb].
      symmetry. by apply sockets_of_delete_fresh.
    + symmetry. by apply sockets_of_delete_fresh.
  - rewrite bool_decide_eq_false_2 by done.
    unfold sockets_of. cbn [List.filter snd].
    destruct (bool_decide (userName s = name)); cbn [map fst List.filter].
    + rewrite bool_decide_eq_false_2 by done. cbn [negb]. f_equal. by apply IH.
    + by apply IH.
Qed.

Lemma stillConnected_sockets (name : string) (l : list (WebSocket * SessionInfo)) :
  stillConnected name l = match sockets_of name l with [] => false | _ => true end.
Proof.
  unfold stillConnected, sockets_of. induction l as [|[k s] l IH]; [done|].
  cbn. destruct (bool_decide (userName s = name)); cbn; [done|apply IH].
Qed.

Lemma map_delete_split (ws : WebSocket) (l : list (WebSocket * SessionInfo)) :
  ws ∈ map fst l ->
  exists l1 s l2, l = l1 ++ ((ws, s) :: l2) ∧ (ws ∉ map fst l1) ∧ map_delete ws l = l1 ++ l2.
Proof.
  induction l as [|[k s] l IH]; cbn [map fst]; [set_solver|]. intros Hin.
  cbn [map_delete]. destruct (decide (k = ws)) as [->|Hne].
  - rewrite bool_decide_eq_true_2 by done. exists [], s, l. set_solver.
  - rewrite bool_decide_eq_false_2 by done.
    destruct IH as (l1 & s' & l2 & -> & Hn & Hd); [set_solver|].
    exists ((k, s) :: l1), s', l2. rewrite Hd. cbn. set_solver.
Qed.

Lemma map_set_elem (ws : WebSocket) (s : SessionInfo) (l : list (WebSocket * SessionInfo)) :
  (ws, s) ∈ map_set ws s l.
Proof.
  induction l as [|[k v] l IH]; cbn; [set_solver|].
  destruct (bool_decide (k = ws)); set_solver.
Qed.

(** ** The connectedUsers map and the settings bag *)

Lemma js_set_ne (k u : string) (b : bool) (o : gmap string bool) :
  u ≠ k -> js_set k b o !! u = o !! u.
Proof.
  intros Hne. unfold js_set.
  destruct (bool_decide (k = "__proto__"%string) && bool_decide (o !! k = None)); [done|].
  by rewrite lookup_insert_ne.
Qed.

Lemma js_set_eq (k : string) (b : bool) (o : gmap string bool) :
  k ≠ "__proto__"%string ∨ is_Some (o !! k) -> js_set k b o !! k = Some b.
Proof.
  intros H. unfold js_set.
  destruct (decide (k = "__proto__"%string)) as [->|Hne].
  - destruct H as [H|[x Hx]]; [done|].
    rewrite (bool_decide_eq_false_2 (o !! "__proto__"%string = None)) by congruence.
    rewrite andb_false_r. cbv iota. by rewrite lookup_insert_eq.
  - rewrite (bool_decide_eq_false_2 (k = "__proto__"%string)) by done.
    cbn [andb]. by rewrite lookup_insert_eq.
Qed.

Lemma js_set_swallowed (b : bool) (o : gmap string bool) :
  o !! "__proto__"%string = None -> js_set "__proto__" b o = o.
Proof. intros H. unfold js_set. by rewrite !bool_decide_eq_true_2. Qed.

Lemma js_set_is_Some (k u : string) (b : bool) (o : gmap string bool) :
  is_Some (o !! u) -> is_Some (js_set k b o !! u).
Proof.
  intros Hu. destruct (decide (u = k)) as [->|Hne].
  - rewrite js_set_eq; eauto.
  - by rewrite js_set_ne.
Qed.

Lemma js_set_twice (k : string) (b b' : bool) (o : gmap string bool) :
  js_set k b' (js_set k b o) = js_set k b' o.
Proof.
  unfold js_set.
  destruct (bool_decide (k = "__proto__"%string) && bool_decide (o !! k = None)) eqn:E.
  - by rewrite E.
  - assert (bool_decide (k = "__proto__"%string)
            && bool_decide (<[k := b]> o !! k = None) = false) as ->.
    { rewrite lookup_insert_eq. by rewrite andb_false_r. }
    cbv iota. by rewrite insert_insert_eq.
Qed.

Lemma foldl_backfill (us : list string) (cu : gmap string bool) (u : string) :
  u ≠ "__proto__"%string ->
  foldl (fun cu user => js_set user false cu) cu us !! u
  = if bool_decide (u ∈ us) then Some false else cu !! u.
Proof.
  intros Hu. revert cu. induction us as [|a us IH]; intros cu; [done|].
  cbn [foldl]. rewrite IH.
  destruct (decide (u ∈ us)) as [Hin|Hin].
  - rewrite !bool_decide_eq_true_2; set_solver.
  - rewrite (bool_decide_eq_false_2 _ Hin).
    destruct (decide (a = u)) as [->|Hne].
    + rewrite js_set_eq, bool_decide_eq_true_2; [done|set_solver|by left].
    + rewrite js_set_ne, bool_decide_eq_false_2; set_solver.
Qed.

Lemma foldl_backfill_proto (us : list string) (cu : gmap string bool) :
  cu !! "__proto__"%string = None ->
  foldl (fun cu user => js_set user false cu) cu us !! "__proto__"%string = None.
Proof.
  revert cu. induction us as [|a us IH]; intros cu Hcu; [done|].
  cbn [foldl]. apply IH.
  destruct (decide (a = "__proto__"%string)) as [->|Hne].
  - by rewrite js_set_swallowed.
  - by rewrite js_set_ne.
Qed.

Lemma backfill_lookup (us : list string) (u : string) :
  backfill us !! u
  = if bool_decide (u ∈ us) && negb (bool_decide (u = "__proto__"%string))
    then Some false else None.
Proof.
  unfold backfill. destruct (decide (u = "__proto__"%string)) as [->|Hne].
  - rewrite foldl_backfill_proto by done. by rewrite andb_false_r.
  - rewrite foldl_backfill, lookup_empty, (bool_decide_eq_false_2 (u = "__proto__"%string))
      by done.
    by rewrite andb_true_r.
Qed.

Lemma merge_settings_lookup (s p : gmap string jsval) (k : string) :
  merge_settings s p !! k = match p !! k with Some v => Some v | None => s !! k end.
Proof.
  unfold merge_settings. destruct (p !! k) as [v|] eqn:Hp.
  - by apply lookup_union_Some_l.
  - by apply lookup_union_r.
Qed.

Lemma push_user_spec (name : string) (us : list string) :
  (name ∈ us ∧ push_user name us = us) ∨ ((name ∉ us) ∧ push_user name us = us ++ [name]).
Proof.
  unfold push_user. destruct (decide (name ∈ us)).
  - left. by rewrite bool_decide_eq_true_2.
  - right. by rewrite bool_decide_eq_false_2.
Qed.

(** ** Reading the trace of a broadcast *)

Lemma puts_deliver (closed : gset WebSocket) (m : message) (l : list (WebSocket * SessionInfo)) :
  puts (map (deliver closed m) l) = [].
Proof.
  induction l as [|s l IH]; [done|]. unfold puts in *. cbn.
  unfold deliver at 1, sent. destruct (bool_decide _); apply IH.
Qed.

Lemma puts_app (t1 t2 : list event) : puts (t1 ++ t2) = puts t1 ++ puts t2.
Proof. apply omap_app. Qed.

Lemma filter_deliver (f : event -> bool) (closed : gset WebSocket) (m : message)
    (l : list (WebSocket * SessionInfo)) :
  (forall ws, f (EvSend ws m) = false) -> (forall ws, f (EvSendFailed ws m) = false) ->
  List.filter f (map (deliver closed m) l) = [].
Proof.
  intros H1 H2. induction l as [|s l IH]; [done|]. cbn.
  unfold deliver at 1, sent. destruct (bool_decide _); rewrite ?H1, ?H2; apply IH.
Qed.

Lemma candidates_first (r : RoomData) (before after : list string) (c : string) :
  users r = before ++ c :: after ->
  isConnected_in r c = true ->
  (forall u, u ∈ before -> isConnected_in r u = false) ->
  connected_candidates r = c :: List.filter (isConnected_in r) after.
Proof.
  unfold connected_candidates. intros -> Hc Hb.
  induction before as [|b before IH]; cbn.
  - by rewrite Hc.
  - rewrite (Hb b) by set_solver. apply IH. intros u Hu. apply Hb. set_solver.
Qed.

Lemma candidates_none (r : RoomData) :
  (forall u, u ∈ users r -> isConnected_in r u = false) ->
  connected_candidates r = [].
Proof.
  unfold connected_candidates. induction (users r) as [|b us IH]; [done|].
  intros H. cbn. rewrite (H b) by set_solver. apply IH. intros u Hu. apply H. set_solver.
Qed.

Lemma isConnected_in_tracked (r : RoomData) (u : string) :
  tracked r u = Some true -> isConnected_in r u = true.
Proof.
  unfold isConnected_in, tracked. destruct (connectedUsers r) as [cu|]; [|done].
  by intros ->.
Qed.

Lemma isConnected_in_spec (r : RoomData) (u : string) :
  isConnected_in r u = true ->
  tracked r u = Some true ∨ (tracked r u = None ∧ inherited u = true).
Proof.
  unfold isConnected_in, tracked. destruct (connectedUsers r) as [cu|]; [|done].
  destruct (cu !! u) as [[]|]; intros H; try discriminate; [by left|by right].
Qed.

Lemma isConnected_in_false (r : RoomData) (u : string) :
  tracked r u ≠ Some true -> (tracked r u = None -> inherited u = false) ->
  isConnected_in r u = false.
Proof.
  intros H Hi. destruct (isConnected_in r u) eqn:E; [|done].
  destruct (isConnected_in_spec r u E) as [Ht|[Ht Hinh]]; [done|].
  by rewrite (Hi Ht) in Hinh.
Qed.

Lemma last_session_closed (name : string) (ws : WebSocket) (l : list (WebSocket * SessionInfo)) :
  NoDup (map fst l) -> sockets_of name l = [ws] ->
  stillConnected name (map_delete ws l) = false.
Proof.
  intros Hnd Hs. rewrite stillConnected_sockets, sockets_of_delete, Hs by done.
  cbn. by rewrite bool_decide_eq_true_2.
Qed.

(** ** Moderator failover *)

(** C1, at an input where the code departs from it. A room is activated on
    empty storage and created by A; A, a user named __proto__ and B connect;
    the socket of __proto__ closes. No entry was ever stored for __proto__:
    the map holds A and B, both true. When the only session of A closes, the
    first member of [users] with a true entry is B, but the stored moderator
    is __proto__, and a newModerator message names it. In the same room
    without B no entry is true once A has left, and the moderator is
    changed to __proto__ all the same. *)
Theorem failover_elects_unlisted_name :
  let st0 := state_of (constructor (mkRoom None [] ∅)) in
  let st := perform_all [OpCreate "ROOM01" "A"; OpConnect 1 "ROOM01" "A";
                         OpConnect 2 "ROOM01" "__proto__"; OpConnect 3 "ROOM01" "B";
                         OpDisconnect 2 "__proto__"] st0 in
  let st' := perform_all [OpCreate "ROOM01" "A"; OpConnect 1 "ROOM01" "A";
                          OpConnect 2 "ROOM01" "__proto__";
                          OpDisconnect 2 "__proto__"] st0 in
  (exists r r1,
     storage st = Some r
     ∧ users r = ["A"; "__proto__"; "B"]%string ∧ moderator r = "A"%string
     ∧ sockets_of "A" (sessions st) = [1]
     ∧ tracked r "__proto__" = None ∧ tracked r "B" = Some true
     ∧ storage (state_of (onClose 1 "A" st)) = Some r1
     ∧ moderator r1 = "__proto__"%string
     ∧ EvBroadcast (MNewModerator "__proto__" r1) ∈ trace_of (onClose 1 "A" st))
  ∧ (exists r r1,
       storage st' = Some r
       ∧ users r = ["A"; "__proto__"]%string ∧ moderator r = "A"%string
       ∧ sockets_of "A" (sessions st') = [1]
       ∧ storage (state_of (onClose 1 "A" st')) = Some r1
       ∧ (forall u, u ∈ users r1 -> tracked r1 u ≠ Some true)
       ∧ moderator r1 = "__proto__"%string
       ∧ EvBroadcast (MNewModerator "__proto__" r1) ∈ trace_of (onClose 1 "A" st')).
Proof.
  cbv zeta. split.
  - eexists _, _. split; [vm_compute; reflexivity|].
    repeat split; try (vm_compute; reflexivity).
    vm_compute. set_solver.
  - eexists _, _. split; [vm_compute; reflexivity|].
    split; [vm_compute; reflexivity|]. split; [vm_compute; reflexivity|].
    split; [vm_compute; reflexivity|]. split; [vm_compute; reflexivity|].
    split.
    + intros u Hu. vm_compute in Hu.
      repeat (apply elem_of_cons in Hu as [->|Hu]); try (by apply elem_of_nil in Hu);
        vm_compute; discriminate.
    + split; [vm_compute; reflexivity|]. vm_compute. set_solver.
Qed.

(** ** Create *)

(** C2. On a record whose key is not empty, POST /initialize answers 400
    "Room already exists", leaves the state of the room as it was and writes
    nothing. Hence, of two creates in a row with a non-empty room key, the
    second one gets that error and the record is still the one the first
    call left; when the first call found no initialized record, this is the
    record it created and returned. *)
Theorem create_guard :
  (forall (st : Room) (r : RoomData) (rk creator : string),
     storage st = Some r -> key r ≠ ""%string ->
     let x := initialize rk creator st in
     result_of x = Ret (json_error 400 "Room already exists")
     ∧ state_of x = st
     ∧ puts (trace_of x) = [])
  ∧ (forall (st : Room) (rk1 creator1 rk2 creator2 : string),
       rk1 ≠ ""%string ->
       let x1 := initialize rk1 creator1 st in
       let x2 := initialize rk2 creator2 (state_of x1) in
       result_of x2 = Ret (json_error 400 "Room already exists")
       ∧ state_of x2 = state_of x1
       ∧ puts (trace_of x2) = []
       ∧ ((forall r, storage st = Some r -> key r = ""%string) ->
          result_of x1 = Ret (mkResponse 200 (BRoom (created rk1 creator1)))
          ∧ storage (state_of x2) = Some (created rk1 creator1))).
Proof.
  assert (forall (st : Room) (r : RoomData) (rk creator : string),
     storage st = Some r -> key r ≠ ""%string ->
     let x := initialize rk creator st in
     result_of x = Ret (json_error 400 "Room already exists")
     ∧ state_of x = st ∧ puts (trace_of x) = []) as Hguard.
  { intros st r rk creator Hst Hk x. subst x.
    rewrite (initialize_taken rk creator st r Hst Hk). done. }
  split; [exact Hguard|].
  intros st rk1 creator1 rk2 creator2 Hrk x1 x2.
  assert (exists r1, storage (state_of x1) = Some r1 ∧ key r1 ≠ ""%string) as (r1 & Hst1 & Hk1).
  { subst x1. destruct (storage st) as [r|] eqn:Hst.
    - destruct (decide (key r = ""%string)) as [He|Hne].
      + rewrite initialize_fresh by (intros r0 Hr0; congruence). by exists (created rk1 creator1).
      + rewrite (initialize_taken rk1 creator1 st r Hst Hne). by exists r.
    - rewrite initialize_fresh by (intros r0 Hr0; congruence). by exists (created rk1 creator1). }
  destruct (Hguard (state_of x1) r1 rk2 creator2 Hst1 Hk1) as (Hr & Hs & Hp).
  fold x2 in Hr, Hs, Hp. repeat split; try done.
  - subst x1. by rewrite initialize_fresh.
  - rewrite Hs. subst x1. by rewrite initialize_fresh.
Qed.

Lemma create_guard_twice :
  ("ROOM01"%string ≠ ""%string
   ∧ forall r, storage (mkRoom None [] ∅) = Some r -> key r = ""%string)
  ∧ result_of (initialize "ROOM01" "A" (mkRoom None [] ∅))
    = Ret (mkResponse 200 (BRoom (created "ROOM01" "A")))
  ∧ result_of (initialize "ROOM01" "B" (state_of (initialize "ROOM01" "A" (mkRoom None [] ∅))))
    = Ret (json_error 400 "Room already exists")
  ∧ storage (state_of (initialize "ROOM01" "B"
               (state_of (initialize "ROOM01" "A" (mkRoom None [] ∅)))))
    = Some (created "ROOM01" "A").
Proof.
  assert ("ROOM01"%string ≠ ""%string) as Hrk by discriminate.
  assert (forall r, storage (mkRoom None [] ∅) = Some r -> key r = ""%string) as Hfresh
    by (intros r; cbn; discriminate).
  split; [done|].
  destruct (proj2 create_guard (mkRoom None [] ∅) "ROOM01"%string "A"%string
              "ROOM01"%string "B"%string Hrk) as (H2 & _ & _ & Hfirst).
  destruct (Hfirst Hfresh) as (H1 & H3). done.
Defined.

(** ** Settings *)

(** C3. When the moderator updates the settings with [p], on the channel
    (handleUpdateSettings) as on the request path (PUT /settings, on an
    initialized room), the stored settings hold, for every key of [p], the
    value [p] gives it, and for every other key what was stored before; the
    rest of the record is untouched. *)
Theorem settings_merge (st : Room) (r : RoomData) (name : string) (p : gmap string jsval) :
  storage st = Some r -> moderator r = name ->
  (exists r',
     storage (state_of (handleUpdateSettings name p st)) = Some r'
     ∧ (forall k v, p !! k = Some v -> settings r' !! k = Some v)
     ∧ (forall k, p !! k = None -> settings r' !! k = settings r !! k)
     ∧ with_settings (settings r) r' = r)
  ∧ (key r ≠ ""%string ->
     exists r',
       storage (state_of (putSettings name p st)) = Some r'
       ∧ result_of (putSettings name p st) = Ret (mkResponse 200 (BSettings (settings r')))
       ∧ (forall k v, p !! k = Some v -> settings r' !! k = Some v)
       ∧ (forall k, p !! k = None -> settings r' !! k = settings r !! k)
       ∧ with_settings (settings r) r' = r).
Proof.
  intros Hst Hm.
  assert ((forall k v, p !! k = Some v -> settings (updated p r) !! k = Some v)
          ∧ (forall k, p !! k = None -> settings (updated p r) !! k = settings r !! k)
          ∧ with_settings (settings r) (updated p r) = r) as Hmerge.
  { cbn [updated with_settings settings]. repeat split.
    - intros k v Hk. by rewrite merge_settings_lookup, Hk.
    - intros k Hk. by rewrite merge_settings_lookup, Hk.
    - by destruct r. }
  split.
  - exists (updated p r). by rewrite (handleUpdateSettings_run name p st r Hst Hm).
  - intros Hk. exists (updated p r). by rewrite (putSettings_run name p st r Hst Hk Hm).
Qed.

(** From x=1, an update with y=2 gives x=1, y=2, and a further update with
    x=3 gives x=3, y=2. *)
Lemma settings_merge_xy :
  (storage x1_room = Some (with_settings x1_settings abc_record)
   ∧ moderator (with_settings x1_settings abc_record) = "A"%string)
  ∧ (exists r', storage (state_of (handleUpdateSettings "A" (<["y" := JNum 2]> ∅) x1_room)) = Some r'
       ∧ settings r' !! "x"%string = Some (JNum 1) ∧ settings r' !! "y"%string = Some (JNum 2))
  ∧ merge_settings x1_settings (<["y" := JNum 2]> ∅)
    = <["x" := JNum 1]> (<["y" := JNum 2]> ∅)
  ∧ merge_settings (merge_settings x1_settings (<["y" := JNum 2]> ∅)) (<["x" := JNum 3]> ∅)
    = <["x" := JNum 3]> (<["y" := JNum 2]> ∅).
Proof.
  split; [done|]. split.
  - destruct (settings_merge x1_room _ "A"%string (<["y" := JNum 2]> ∅) eq_refl eq_refl)
      as [(r' & Hs & Hp & Hk & _) _].
    exists r'. split; [exact Hs|]. split.
    + rewrite Hk by (vm_compute; reflexivity). vm_compute. reflexivity.
    + apply Hp. vm_compute. reflexivity.
  - split; vm_compute; reflexivity.
Defined.

(** C6. An updateSettings message from a user who is not the moderator is
    dropped: the listener returns normally, the room is as before, and
    the trace holds no put, no broadcast and no send. The same update over
    PUT /settings on an initialized room answers 403 and leaves the room as
    before. *)
Theorem non_moderator_update (st : Room) (r : RoomData) (ws : WebSocket)
    (name : string) (p : gmap string jsval) :
  storage st = Some r -> moderator r ≠ name ->
  (let x := onMessage ws name (InUpdateSettings p) st in
   result_of x = Ret tt ∧ state_of x = st ∧ trace_of x = [EvGateEnter; EvGet; EvGateExit])
  ∧ (key r ≠ ""%string ->
     let y := putSettings name p st in
     result_of y = Ret (json_error 403 "Only the moderator can update settings")
     ∧ state_of y = st ∧ trace_of y = [EvGateEnter; EvGet; EvGateExit]).
Proof.
  intros Hst Hm. split.
  - unfold onMessage, try_catch.
    rewrite handleUpdateSettings_dropped; [done|].
    intros r0 Hr0. congruence.
  - intros Hk. cbv zeta. by rewrite (putSettings_forbidden name p st r Hst Hk Hm).
Qed.

Lemma non_moderator_update_abc :
  (storage abc_room = Some abc_record ∧ moderator abc_record ≠ "B"%string
   ∧ key abc_record ≠ ""%string)
  ∧ state_of (onMessage 2 "B" (InUpdateSettings (<["x" := JNum 3]> ∅)) abc_room) = abc_room
  ∧ result_of (putSettings "B" (<["x" := JNum 3]> ∅) abc_room)
    = Ret (json_error 403 "Only the moderator can update settings").
Proof.
  assert (moderator abc_record ≠ "B"%string) as Hm by discriminate.
  assert (key abc_record ≠ ""%string) as Hk by discriminate.
  split; [done|].
  destruct (non_moderator_update abc_room abc_record 2 "B"%string
              (<["x" := JNum 3]> ∅) eq_refl Hm) as [(_ & H1 & _) H2].
  destruct (H2 Hk) as (H3 & _). done.
Defined.

(** ** Where the broadcasts sit with respect to the gate *)

Lemma forget_run {A} (m : M A) (st : Room) :
  state_of (forget m st) = state_of (m st) ∧ trace_of (forget m st) = trace_of (m st).
Proof.
  unfold forget, bind, ret, state_of, trace_of.
  destruct (m st) as [[[a|e] st1] t1]; cbn; by rewrite ?app_nil_r.
Qed.

Lemma onMessage_update (ws : WebSocket) (name : string) (p : gmap string jsval) (st : Room) :
  onMessage ws name (InUpdateSettings p) st = handleUpdateSettings name p st.
Proof.
  unfold onMessage, try_catch.
  destruct (storage st) as [r|] eqn:Hst.
  - destruct (decide (moderator r = name)) as [Hm|Hm].
    + by rewrite (handleUpdateSettings_run name p st r Hst Hm).
    + rewrite handleUpdateSettings_dropped; [done|]. intros r0 Hr0. congruence.
  - rewrite handleUpdateSettings_dropped; [done|]. intros r0 Hr0. congruence.
Qed.

Lemma inside_deliver (closed : gset WebSocket) (m : message)
    (l : list (WebSocket * SessionInfo)) (t : list event) :
  fanned_out m = true ->
  broadcasts_when true true (map (deliver closed m) l ++ t) = broadcasts_when true true t.
Proof.
  intros Hm. induction l as [|s l IH]; [done|]. cbn [map app].
  unfold deliver at 1, sent.
  destruct (bool_decide _); cbn [broadcasts_when broadcast_event]; rewrite Hm, IH; done.
Qed.

Lemma inside_handover (name : string) (r : RoomData) (l : list (WebSocket * SessionInfo))
    (closed : gset WebSocket) (t : list event) :
  broadcasts_when true true (handover name r l closed ++ t) = broadcasts_when true true t.
Proof.
  unfold handover. destruct (bool_decide (name = moderator r)); [|done].
  destruct (connected_candidates (departed name r)) as [|c cs]; [done|].
  cbv zeta. rewrite <- app_assoc. cbn [app broadcasts_when broadcast_event andb bool_decide].
  by rewrite inside_deliver.
Qed.

Lemma orderings_exclusive (t : list event) (inside : bool) :
  broadcasts_when true inside t = true ->
  (exists e, e ∈ t ∧ broadcast_event e = true) ->
  broadcasts_when false inside t = false.
Proof.
  revert inside. induction t as [|e t IH]; intros inside Hin (e' & He' & Hb);
    [by apply elem_of_nil in He'|].
  assert (broadcast_event e = false -> exists e0, e0 ∈ t ∧ broadcast_event e0 = true) as Hrest.
  { intros Hf. apply elem_of_cons in He' as [->|Ht]; [congruence|eauto]. }
  destruct (broadcast_event e) eqn:Hbe.
  - destruct e; cbn in Hbe; try discriminate;
      cbn [broadcasts_when broadcast_event] in Hin |- *;
      try rewrite Hbe in Hin; try rewrite Hbe;
      apply andb_true_iff in Hin as [Hi _]; apply bool_decide_eq_true in Hi; subst inside; done.
  - destruct e; cbn in Hbe; try discriminate;
      cbn [broadcasts_when broadcast_event] in Hin |- *;
      try rewrite Hbe in Hin; try rewrite Hbe;
      try (apply IH; [exact Hin | by apply Hrest]);
      apply andb_true_iff in Hin as [_ Hin]; rewrite (IH inside Hin (Hrest eq_refl)); done.
Qed.

Ltac scan_trace :=
  cbn [app broadcasts_when broadcast_event fanned_out andb];
  rewrite ?inside_deliver, ?inside_handover by done;
  cbn [app broadcasts_when broadcast_event fanned_out andb];
  try reflexivity.

(** C4, as the code has it. In the trace of every operation, every event of
    a broadcast (the call and each send of a message other than initialize
    and error) lies inside the gate, between the entry into
    blockConcurrencyWhile and the exit from it. So whenever an operation
    broadcasts at all, it does not do so after the gate was released. *)
Theorem broadcast_inside_gate (op : operation) (st : Room) :
  broadcasts_when true false (trace_of (perform op st)) = true
  ∧ ((exists e, e ∈ trace_of (perform op st) ∧ broadcast_event e = true) ->
     broadcasts_when false false (trace_of (perform op st)) = false).
Proof.
  assert (broadcasts_when true false (trace_of (perform op st)) = true) as Hin.
  { destruct op as [rk creator|name|ws rk name|ws name|name p|ws name p|]; cbn [perform];
      rewrite ?(proj2 (forget_run _ _)), ?onMessage_update.
    - destruct (storage st) as [r|] eqn:Hst; [destruct (decide (key r = ""%string)) as [Hk|Hk]|].
      + rewrite initialize_fresh by (intros; congruence). done.
      + by rewrite (initialize_taken _ _ _ _ Hst Hk).
      + rewrite initialize_fresh by (intros; congruence). done.
    - destruct (storage st) as [r|] eqn:Hst; [destruct (decide (key r = ""%string)) as [Hk|Hk]|].
      + rewrite join_not_found by (intros; congruence). done.
      + rewrite (join_run _ _ _ Hst Hk). unfold trace_of. cbn [snd]. scan_trace.
      + rewrite join_not_found by (intros; congruence). done.
    - destruct (storage st) as [r|] eqn:Hst.
      + rewrite (handleSession_run _ _ _ _ _ Hst). unfold trace_of. cbn [snd]. scan_trace.
        unfold sent. by destruct (bool_decide (ws ∈ closedSockets st)).
      + rewrite (handleSession_absent _ _ _ _ Hst). unfold trace_of, sent. cbn [snd].
        by destruct (bool_decide (ws ∈ closedSockets st)).
    - destruct (stillConnected name (map_delete ws (sessions st))) eqn:Hs.
      + by rewrite (onClose_other_sessions _ _ _ Hs).
      + destruct (storage st) as [r|] eqn:Hst.
        * rewrite (onClose_last _ _ _ _ Hs Hst). unfold trace_of. cbn [snd]. scan_trace.
        * by rewrite (onClose_absent _ _ _ Hs Hst).
    - destruct (storage st) as [r|] eqn:Hst; [destruct (decide (key r = ""%string)) as [Hk|Hk]|].
      + rewrite putSettings_not_found by (intros; congruence). done.
      + destruct (decide (moderator r = name)) as [Hm|Hm].
        * rewrite (putSettings_run _ _ _ _ Hst Hk Hm). unfold trace_of. cbn [snd]. scan_trace.
        * by rewrite (putSettings_forbidden _ _ _ _ Hst Hk Hm).
      + rewrite putSettings_not_found by (intros; congruence). done.
    - destruct (storage st) as [r|] eqn:Hst; [destruct (decide (moderator r = name)) as [Hm|Hm]|].
      + rewrite (handleUpdateSettings_run _ _ _ _ Hst Hm). unfold trace_of. cbn [snd]. scan_trace.
      + rewrite handleUpdateSettings_dropped by (intros; congruence). done.
      + rewrite handleUpdateSettings_dropped by (intros; congruence). done.
    - destruct (storage st) as [r|] eqn:Hst; [destruct (decide (key r = ""%string)) as [Hk|Hk]|].
      + unfold getSettings. run_handler. rewrite Hst, (truthy_false _ Hk). done.
      + by rewrite (getSettings_run _ _ Hst Hk).
      + unfold getSettings. run_handler. rewrite Hst. done. }
  split; [exact Hin|]. intros He. by apply orderings_exclusive.
Qed.

Lemma broadcast_inside_gate_join :
  (exists e, e ∈ trace_of (perform (OpJoin "D") abc_room) ∧ broadcast_event e = true)
  ∧ broadcasts_when true false (trace_of (perform (OpJoin "D") abc_room)) = true
  ∧ broadcasts_when false false (trace_of (perform (OpJoin "D") abc_room)) = false.
Proof.
  assert (exists e, e ∈ trace_of (perform (OpJoin "D") abc_room) ∧ broadcast_event e = true) as He.
  { exists (EvBroadcast (MUserJoined "D" (admitted "D" abc_record))).
    split; [|reflexivity]. cbn [perform]. rewrite (proj2 (forget_run _ _)).
    rewrite (join_run "D" abc_room abc_record eq_refl) by discriminate.
    unfold trace_of. cbn [snd]. set_solver. }
  split; [exact He|].
  destruct (broadcast_inside_gate (OpJoin "D") abc_room) as [H1 H2].
  split; [exact H1 | exact (H2 He)].
Defined.

(** C4 as the specification words it does not hold: a join on the room of A, B and C sends its
    userJoined broadcast to the three sessions before the gate is left. *)
Lemma broadcast_after_gate_fails :
  notifies (OpJoin "D") = true
  ∧ trace_of (perform (OpJoin "D") abc_room)
    = [EvGateEnter; EvGet; EvPut (admitted "D" abc_record);
       EvBroadcast (MUserJoined "D" (admitted "D" abc_record));
       EvSend 1 (MUserJoined "D" (admitted "D" abc_record));
       EvSend 2 (MUserJoined "D" (admitted "D" abc_record));
       EvSend 3 (MUserJoined "D" (admitted "D" abc_record));
       EvGateExit]
  ∧ broadcasts_when false false (trace_of (perform (OpJoin "D") abc_room)) = false.
Proof.
  assert (trace_of (perform (OpJoin "D") abc_room)
    = [EvGateEnter; EvGet; EvPut (admitted "D" abc_record);
       EvBroadcast (MUserJoined "D" (admitted "D" abc_record));
       EvSend 1 (MUserJoined "D" (admitted "D" abc_record));
       EvSend 2 (MUserJoined "D" (admitted "D" abc_record));
       EvSend 3 (MUserJoined "D" (admitted "D" abc_record));
       EvGateExit]) as Ht.
  { cbn [perform]. rewrite (proj2 (forget_run _ _)).
    rewrite (join_run "D" abc_room abc_record eq_refl) by discriminate.
    reflexivity. }
  split; [reflexivity|]. split; [exact Ht|]. rewrite Ht. reflexivity.
Qed.

(** ** Several sessions of one user *)

Lemma map_delete_keys (ws k : WebSocket) (l : list (WebSocket * SessionInfo)) :
  k ∈ map fst (map_delete ws l) -> k ∈ map fst l.
Proof.
  induction l as [|[k' s] l IH]; cbn; [done|].
  destruct (bool_decide (k' = ws)); cbn; set_solver.
Qed.

Lemma map_delete_NoDup (ws : WebSocket) (l : list (WebSocket * SessionInfo)) :
  NoDup (map fst l) -> NoDup (map fst (map_delete ws l)).
Proof.
  induction l as [|[k s] l IH]; cbn; [done|]. intros [Hk Hl]%NoDup_cons.
  destruct (bool_decide (k = ws)); cbn; [done|].
  apply NoDup_cons. split; [|by apply IH].
  intros Hin. apply Hk. by apply map_delete_keys in Hin.
Qed.

Lemma succeeded_map (name : string) (r : RoomData) :
  connectedUsers (succeeded name r) = Some (js_set name false (reconciled r)).
Proof.
  unfold succeeded.
  destruct (bool_decide (name = moderator r));
    [destruct (connected_candidates (departed name r))|]; done.
Qed.

Lemma tracked_reconciled (r : RoomData) (u : string) :
  is_Some (tracked r u) -> reconciled r !! u = tracked r u.
Proof.
  unfold tracked, reconciled. destruct (connectedUsers r); [done|]. by intros [? ?].
Qed.

Lemma succeeded_tracked (name : string) (r : RoomData) :
  (name ≠ "__proto__"%string ∨ is_Some (tracked r name) ->
   tracked (succeeded name r) name = Some false)
  ∧ users (succeeded name r) = users r
  ∧ key (succeeded name r) = key r.
Proof.
  split.
  - intros H. unfold tracked. rewrite succeeded_map. apply js_set_eq.
    destruct H as [H|H]; [by left|right]. by rewrite tracked_reconciled.
  - unfold succeeded.
    destruct (bool_decide (name = moderator r));
      [destruct (connected_candidates (departed name r))|]; done.
Qed.

Lemma handover_last_put (name : string) (r : RoomData) (l : list (WebSocket * SessionInfo))
    (closed : gset WebSocket) :
  last (departed name r :: puts (handover name r l closed)) = Some (succeeded name r)
  ∧ List.filter status_broadcast (handover name r l closed) = [].
Proof.
  unfold handover, succeeded.
  destruct (bool_decide (name = moderator r)); [|done].
  destruct (connected_candidates (departed name r)) as [|c cs]; [done|].
  cbv zeta. unfold puts. rewrite omap_app. fold puts. rewrite puts_deliver.
  rewrite List.filter_app, filter_deliver by done. done.
Qed.

(** C5. A user whose connectedUsers entry is true and who has two
    registered sessions closes them one after the other. The first close
    takes that one session out of the registry and nothing else happens: the
    record is the same (the entry is still true), nothing is written,
    nothing is sent. The second close stores a record in which the entry of
    the user is false, and its trace holds one userConnectionStatus
    broadcast, with isConnected false. *)
Theorem multi_session_disconnect (st : Room) (r : RoomData) (U : string)
    (ws1 ws2 : WebSocket) :
  storage st = Some r ->
  tracked r U = Some true ->
  NoDup (map fst (sessions st)) ->
  sockets_of U (sessions st) = [ws1; ws2] ∨ sockets_of U (sessions st) = [ws2; ws1] ->
  let x1 := onClose ws1 U st in
  let x2 := onClose ws2 U (state_of x1) in
  (result_of x1 = Ret tt
   ∧ trace_of x1 = []
   ∧ storage (state_of x1) = Some r
   ∧ (exists l1 s l2,
        sessions st = l1 ++ (ws1, s) :: l2 ∧ sessions (state_of x1) = l1 ++ l2)
   ∧ sockets_of U (sessions (state_of x1)) = [ws2])
  ∧ (result_of x2 = Ret tt
     ∧ (exists r',
          storage (state_of x2) = Some r'
          ∧ tracked r' U = Some false
          ∧ last (puts (trace_of x2)) = Some r')
     ∧ List.filter status_broadcast (trace_of x2)
       = [EvBroadcast (MUserConnectionStatus U false (departed U r))]
     ∧ sockets_of U (sessions (state_of x2)) = []).
Proof.
  intros Hst Hconn Hnd Hs x1 x2.
  assert (ws1 ≠ ws2) as Hne.
  { intros ->. assert (NoDup (sockets_of U (sessions st))) as Hd.
    { unfold sockets_of. clear Hs. induction (sessions st) as [|[k s] l IH]; cbn; [constructor|].
      cbn in Hnd. apply NoDup_cons in Hnd as [Hk Hl].
      destruct (bool_decide (userName s = U)); cbn; [|by apply IH].
      apply NoDup_cons. split; [|by apply IH].
      intros Hin. apply Hk. by apply (sockets_of_keys U). }
    destruct Hs as [Hs|Hs]; rewrite Hs in Hd; apply NoDup_cons in Hd as [Hd _]; set_solver. }
  assert (sockets_of U (map_delete ws1 (sessions st)) = [ws2]) as Hs1.
  { rewrite sockets_of_delete by done. destruct Hs as [-> | ->]; cbn;
      rewrite (bool_decide_eq_true_2 (ws1 = ws1)) by done;
      rewrite (bool_decide_eq_false_2 (ws2 = ws1)) by congruence; done. }
  assert (stillConnected U (map_delete ws1 (sessions st)) = true) as Hstill
    by (by rewrite stillConnected_sockets, Hs1).
  assert (ws1 ∈ map fst (sessions st)) as Hin.
  { apply (sockets_of_keys U). destruct Hs as [-> | ->]; set_solver. }
  subst x2 x1. rewrite (onClose_other_sessions ws1 U st Hstill).
  unfold state_of, result_of, trace_of. cbn [fst snd].
  split.
  - repeat split; try done.
    destruct (map_delete_split ws1 (sessions st) Hin) as (l1 & s & l2 & Hl & _ & Hd).
    exists l1, s, l2. done.
  - assert (stillConnected U (map_delete ws2 (sessions (unregistered ws1 st))) = false) as Hlast.
    { apply last_session_closed; [by apply map_delete_NoDup | exact Hs1]. }
    rewrite (onClose_last ws2 U (unregistered ws1 st) r Hlast Hst).
    cbn [fst snd storage sessions closedSockets stored unregistered].
    destruct (handover_last_put U r (map_delete ws2 (map_delete ws1 (sessions st)))
                (closedSockets st)) as [Hput Hfil].
    repeat split.
    + exists (succeeded U r). split; [done|].
      split; [apply succeeded_tracked; right; rewrite Hconn; eauto|].
      rewrite !puts_app, puts_deliver.
      change (puts [EvGateExit]) with (@nil RoomData). rewrite app_nil_r. exact Hput.
    + rewrite !List.filter_app, filter_deliver, Hfil by done. reflexivity.
    + rewrite sockets_of_delete, Hs1 by (by apply map_delete_NoDup).
      cbn. by rewrite bool_decide_eq_true_2.
Qed.

Lemma multi_session_disconnect_tabs :
  (storage two_tabs_room = Some abc_record
   ∧ tracked abc_record "B" = Some true
   ∧ NoDup (map fst (sessions two_tabs_room))
   ∧ sockets_of "B" (sessions two_tabs_room) = [2; 4])
  ∧ trace_of (onClose 4 "B" two_tabs_room) = []
  ∧ storage (state_of (onClose 4 "B" two_tabs_room)) = Some abc_record
  ∧ List.filter status_broadcast
      (trace_of (onClose 2 "B" (state_of (onClose 4 "B" two_tabs_room))))
    = [EvBroadcast (MUserConnectionStatus "B" false (departed "B" abc_record))].
Proof.
  assert (NoDup (map fst (sessions two_tabs_room))) as Hnd by (cbn; repeat constructor; set_solver).
  split; [done|].
  destruct (multi_session_disconnect two_tabs_room abc_record "B"%string 4 2
              eq_refl eq_refl Hnd (or_intror eq_refl)) as [(_ & H1 & H2 & _) (_ & _ & H3 & _)].
  done.
Defined.

(** ** Reconciliation of connectedUsers *)

Lemma constructor_absent_map (st : Room) (r : RoomData) :
  storage st = Some r -> connectedUsers r = None ->
  storage (state_of (constructor st))
  = Some (mkRoomData (key r) (users r) (moderator r) (Some (backfill (users r))) (settings r)).
Proof.
  intros Hst Hc. unfold constructor. run_handler. rewrite Hst, Hc. reflexivity.
Qed.

Lemma constructor_present_map (st : Room) (r : RoomData) (cu : gmap string bool) :
  storage st = Some r -> connectedUsers r = Some cu ->
  storage (state_of (constructor st)) = Some r ∧ puts (trace_of (constructor st)) = [].
Proof.
  intros Hst Hc. unfold constructor. run_handler. rewrite Hst, Hc. done.
Qed.

Lemma reconciled_absent (r : RoomData) (name u : string) (b : bool) :
  connectedUsers r = None -> u ∈ users r -> u ≠ "__proto__"%string ->
  js_set name b (reconciled r) !! u = Some (if bool_decide (u = name) then b else false).
Proof.
  intros Hc Hu Hp. unfold reconciled. rewrite Hc.
  destruct (decide (u = name)) as [->|Hne].
  - rewrite js_set_eq, bool_decide_eq_true_2; [done|done|by left].
  - rewrite js_set_ne, backfill_lookup by done.
    rewrite (bool_decide_eq_true_2 (u ∈ users r)), !bool_decide_eq_false_2 by done. done.
Qed.

Lemma reconciled_present (r : RoomData) (cu : gmap string bool) :
  connectedUsers r = Some cu -> reconciled r = cu.
Proof. intros Hc. unfold reconciled. by rewrite Hc. Qed.

(** C7, as the code has it. The handlers test whether the record has a
    connectedUsers map at all. A record without the map gets one in which
    every name of [users] other than __proto__ is false, before the
    operation sets the entry of its own user and writes the record (join,
    connect, last close), or writes it as it is (activation). A record that
    has a map is taken as it is: the operation sets the entry of its own
    user and no other entry is added or changed, so an entry that was
    missing is still missing in the record that is written; activation then
    writes nothing. What becomes of the entry of a user named __proto__ is
    left open here. *)
Theorem reconcile_absent_map_only (st : Room) (r : RoomData) (ws : WebSocket)
    (rk name : string) :
  storage st = Some r ->
  (connectedUsers r = None ->
     (key r ≠ ""%string ->
      exists r', storage (state_of (join name st)) = Some r'
        ∧ forall u, u ∈ users r -> u ≠ "__proto__"%string ->
            tracked r' u = Some (bool_decide (u = name)))
     ∧ (exists r', storage (state_of (handleSession ws rk name st)) = Some r'
        ∧ forall u, u ∈ users r -> u ≠ "__proto__"%string ->
            tracked r' u = Some (bool_decide (u = name)))
     ∧ (stillConnected name (map_delete ws (sessions st)) = false ->
        exists r', storage (state_of (onClose ws name st)) = Some r'
          ∧ forall u, u ∈ users r -> u ≠ "__proto__"%string -> tracked r' u = Some false)
     ∧ (exists r', storage (state_of (constructor st)) = Some r'
        ∧ forall u, u ∈ users r -> u ≠ "__proto__"%string -> tracked r' u = Some false))
  ∧ (forall cu, connectedUsers r = Some cu ->
     (key r ≠ ""%string ->
      exists r', storage (state_of (join name st)) = Some r'
        ∧ (name ≠ "__proto__"%string -> tracked r' name = Some true)
        ∧ forall u, u ≠ name -> tracked r' u = cu !! u)
     ∧ (exists r', storage (state_of (handleSession ws rk name st)) = Some r'
        ∧ (name ≠ "__proto__"%string -> tracked r' name = Some true)
        ∧ forall u, u ≠ name -> tracked r' u = cu !! u)
     ∧ (stillConnected name (map_delete ws (sessions st)) = false ->
        exists r', storage (state_of (onClose ws name st)) = Some r'
          ∧ (name ≠ "__proto__"%string -> tracked r' name = Some false)
          ∧ forall u, u ≠ name -> tracked r' u = cu !! u)
     ∧ storage (state_of (constructor st)) = Some r
     ∧ puts (trace_of (constructor st)) = []).
Proof.
  intros Hst. split.
  - intros Hc. split; [|split; [|split]].
    + intros Hk. exists (admitted name r). rewrite (join_run name st r Hst Hk).
      split; [done|]. intros u Hu Hp. unfold tracked, admitted. cbn [connectedUsers].
      rewrite (reconciled_absent r name u true Hc Hu Hp). by destruct (bool_decide (u = name)).
    + exists (admitted name r). rewrite (handleSession_run ws rk name st r Hst).
      split; [done|]. intros u Hu Hp. unfold tracked, admitted. cbn [connectedUsers].
      rewrite (reconciled_absent r name u true Hc Hu Hp). by destruct (bool_decide (u = name)).
    + intros Hs. exists (succeeded name r). rewrite (onClose_last ws name st r Hs Hst).
      split; [done|]. intros u Hu Hp.
      unfold tracked. rewrite succeeded_map, (reconciled_absent r name u false Hc Hu Hp).
      by destruct (bool_decide (u = name)).
    + eexists. split; [by apply constructor_absent_map|].
      intros u Hu Hp. unfold tracked. cbn [connectedUsers].
      rewrite backfill_lookup, (bool_decide_eq_true_2 (u ∈ users r)), bool_decide_eq_false_2
        by done. done.
  - intros cu Hc. split; [|split; [|split; [|split]]].
    + intros Hk. exists (admitted name r). rewrite (join_run name st r Hst Hk).
      unfold tracked, admitted. cbn [connectedUsers]. rewrite (reconciled_present r cu Hc).
      split; [done|]. split.
      * intros Hp. apply js_set_eq. by left.
      * intros u Hu. by rewrite js_set_ne.
    + exists (admitted name r). rewrite (handleSession_run ws rk name st r Hst).
      unfold tracked, admitted. cbn [connectedUsers]. rewrite (reconciled_present r cu Hc).
      split; [done|]. split.
      * intros Hp. apply js_set_eq. by left.
      * intros u Hu. by rewrite js_set_ne.
    + intros Hs. exists (succeeded name r). rewrite (onClose_last ws name st r Hs Hst).
      unfold tracked. rewrite succeeded_map, (reconciled_present r cu Hc).
      split; [done|]. split.
      * intros Hp. apply js_set_eq. by left.
      * intros u Hu. by rewrite js_set_ne.
    + by destruct (constructor_present_map st r cu Hst Hc).
    + by destruct (constructor_present_map st r cu Hst Hc).
Qed.

Lemma reconcile_absent_map_only_legacy :
  (storage legacy_room = Some legacy_record ∧ connectedUsers legacy_record = None
   ∧ key legacy_record ≠ ""%string)
  ∧ (exists r', storage (state_of (join "C" legacy_room)) = Some r'
       ∧ tracked r' "A" = Some false ∧ tracked r' "B" = Some false)
  ∧ (exists r', storage (state_of (join "C" partial_room)) = Some r'
       ∧ tracked r' "B" = None).
Proof.
  assert (key legacy_record ≠ ""%string) as Hk by discriminate.
  split; [done|]. split.
  - destruct (reconcile_absent_map_only legacy_room legacy_record 1 "ROOM01"%string "C"%string
                eq_refl) as [H _].
    destruct (H eq_refl) as (Hj & _). destruct (Hj Hk) as (r' & Hs & Hu).
    exists r'. split; [exact Hs|]. split.
    + rewrite (Hu "A"%string) by (set_solver || discriminate). reflexivity.
    + rewrite (Hu "B"%string) by (set_solver || discriminate). reflexivity.
  - destruct (reconcile_absent_map_only partial_room partial_record 1 "ROOM01"%string "C"%string
                eq_refl) as [_ H].
    destruct (H _ eq_refl) as (Hj & _). destruct (Hj Hk) as (r' & Hs & _ & Hu).
    exists r'. split; [exact Hs|]. rewrite (Hu "B"%string) by discriminate. reflexivity.
Defined.

(** C7 as the specification words it does not hold: the record of [partial_room] has a map that
    lacks the entry of B; after a join the record that was written still
    lists B in [users] and still has no entry for B. *)
Lemma backfill_partial_fails :
  storage partial_room = Some partial_record
  ∧ "B"%string ∈ users partial_record
  ∧ tracked partial_record "B" = None
  ∧ result_of (join "C" partial_room) = Ret (mkResponse 200 (BRoom (admitted "C" partial_record)))
  ∧ storage (state_of (join "C" partial_room)) = Some (admitted "C" partial_record)
  ∧ puts (trace_of (join "C" partial_room)) = [admitted "C" partial_record]
  ∧ users (admitted "C" partial_record) = ["A"; "B"; "C"]%string
  ∧ tracked (admitted "C" partial_record) "B" = None.
Proof.
  assert (key partial_record ≠ ""%string) as Hk by discriminate.
  rewrite (join_run "C" partial_room partial_record eq_refl Hk).
  repeat split; try reflexivity. cbn. set_solver.
Qed.

(** ** Broadcast *)

(** C8. [broadcast] returns normally whatever the sockets do, and leaves the
    room as it is. A send is attempted on the socket of every registered
    session, and each session whose socket is not broken is sent the
    message, broken sockets among the others or not. A join or a settings
    update that broadcasts therefore answers with success. *)
Theorem broadcast_isolation (m : message) (st : Room) :
  result_of (broadcast m st) = Ret tt
  ∧ state_of (broadcast m st) = st
  ∧ trace_of (broadcast m st)
    = EvBroadcast m :: map (fun s => sent (closedSockets st) (webSocket s.2) m) (sessions st)
  ∧ (forall ws s, (ws, s) ∈ sessions st -> webSocket s ∉ closedSockets st ->
       EvSend (webSocket s) m ∈ trace_of (broadcast m st))
  ∧ (forall r name, storage st = Some r -> key r ≠ ""%string ->
       result_of (join name st) = Ret (mkResponse 200 (BRoom (admitted name r))))
  ∧ (forall r p, storage st = Some r -> key r ≠ ""%string ->
       result_of (putSettings (moderator r) p st)
       = Ret (mkResponse 200 (BSettings (merge_settings (settings r) p)))).
Proof.
  rewrite broadcast_run. unfold result_of, state_of, trace_of. cbn [fst snd].
  repeat split.
  - intros ws s Hin Hopen. apply elem_of_cons. right.
    apply list_elem_of_fmap. exists (ws, s). split; [|exact Hin].
    unfold deliver, sent. cbn [snd]. by rewrite bool_decide_eq_false_2.
  - intros r name Hst Hk. by rewrite (join_run name st r Hst Hk).
  - intros r p Hst Hk. by rewrite (putSettings_run (moderator r) p st r Hst Hk eq_refl).
Qed.

(** In [broken_room] the socket of B throws; A and C are still sent the
    message and the join succeeds. *)
Lemma broadcast_isolation_broken :
  ((1, mkSession 1 "ROOM01" "A") ∈ sessions broken_room ∧ (1 ∉ closedSockets broken_room)
   ∧ (3, mkSession 3 "ROOM01" "C") ∈ sessions broken_room ∧ (3 ∉ closedSockets broken_room)
   ∧ 2 ∈ closedSockets broken_room
   ∧ storage broken_room = Some abc_record ∧ key abc_record ≠ ""%string)
  ∧ EvSend 1 (MError "ping") ∈ trace_of (broadcast (MError "ping") broken_room)
  ∧ EvSend 3 (MError "ping") ∈ trace_of (broadcast (MError "ping") broken_room)
  ∧ result_of (join "D" broken_room) = Ret (mkResponse 200 (BRoom (admitted "D" abc_record))).
Proof.
  assert ((1, mkSession 1 "ROOM01" "A") ∈ sessions broken_room) as H1 by (cbn; set_solver).
  assert ((3, mkSession 3 "ROOM01" "C") ∈ sessions broken_room) as H3 by (cbn; set_solver).
  assert (1 ∉ closedSockets broken_room) as H1o by (cbn; set_solver).
  assert (3 ∉ closedSockets broken_room) as H3o by (cbn; set_solver).
  assert (2 ∈ closedSockets broken_room) as H2c by (cbn; set_solver).
  assert (key abc_record ≠ ""%string) as Hk by discriminate.
  split; [done|].
  destruct (broadcast_isolation (MError "ping") broken_room) as (_ & _ & _ & Hsend & Hjoin & _).
  split; [exact (Hsend 1 _ H1 H1o)|]. split; [exact (Hsend 3 _ H3 H3o)|].
  exact (Hjoin abc_record "D"%string eq_refl Hk).
Defined.

(** ** The users list *)

Lemma perform_users (op : operation) (st : Room) (r : RoomData) :
  storage st = Some r -> key r ≠ ""%string ->
  exists r',
    storage (state_of (perform op st)) = Some r'
    ∧ key r' = key r
    ∧ (users r' = users r
       ∨ exists name, newcomer op = Some name ∧ (name ∉ users r) ∧ users r' = users r ++ [name])
    ∧ (forall name, newcomer op = Some name -> name ∈ users r').
Proof.
  intros Hst Hk.
  assert (forall name,
    (users (admitted name r) = users r
     ∨ exists n, Some name = Some n ∧ (n ∉ users r) ∧ users (admitted name r) = users r ++ [n])
    ∧ (forall n, Some name = Some n -> n ∈ users (admitted name r))) as Hadm.
  { intros name. cbn [users admitted].
    destruct (push_user_spec name (users r)) as [[Hin ->]|[Hin ->]].
    - split; [by left|]. by intros n [= <-].
    - split; [right; by exists name|]. intros n [= <-]. set_solver. }
  destruct op as [rk creator|name|ws rk name|ws name|name p|ws name p|]; cbn [perform newcomer];
    rewrite ?(proj1 (forget_run _ _)), ?onMessage_update.
  - exists r. rewrite (initialize_taken _ _ _ _ Hst Hk). split; [done|]. split; [done|].
    split; [by left|]. intros n [=].
  - exists (admitted name r). rewrite (join_run _ _ _ Hst Hk). split; [done|]. split; [done|].
    apply Hadm.
  - exists (admitted name r). rewrite (handleSession_run _ _ _ _ _ Hst).
    split; [done|]. split; [done|]. apply Hadm.
  - destruct (stillConnected name (map_delete ws (sessions st))) eqn:Hs.
    + exists r. rewrite (onClose_other_sessions _ _ _ Hs). split; [done|]. split; [done|].
      split; [by left|]. intros n [=].
    + exists (succeeded name r). rewrite (onClose_last _ _ _ _ Hs Hst).
      destruct (succeeded_tracked name r) as (_ & Hu & Hkey).
      split; [done|]. split; [done|]. split; [by left|]. intros n [=].
  - destruct (decide (moderator r = name)) as [Hm|Hm].
    + exists (updated p r). rewrite (putSettings_run _ _ _ _ Hst Hk Hm).
      split; [done|]. split; [done|]. split; [by left|]. intros n [=].
    + exists r. rewrite (putSettings_forbidden _ _ _ _ Hst Hk Hm).
      split; [done|]. split; [done|]. split; [by left|]. intros n [=].
  - destruct (decide (moderator r = name)) as [Hm|Hm].
    + exists (updated p r). rewrite (handleUpdateSettings_run _ _ _ _ Hst Hm).
      split; [done|]. split; [done|]. split; [by left|]. intros n [=].
    + exists r. rewrite handleUpdateSettings_dropped by (intros; congruence).
      split; [done|]. split; [done|]. split; [by left|]. intros n [=].
  - exists r. rewrite (getSettings_run _ _ Hst Hk).
    split; [done|]. split; [done|]. split; [by left|]. intros n [=].
Qed.

(** C9, at an input where the code departs from it. A room is activated on
    empty storage and created by A; a user named __proto__ connects on one
    socket, and that socket closes. The name is in [users] and no session of
    the user is left, but the close has stored no entry for it: the user is
    not marked disconnected, and read as the failover reads it the user
    counts as connected. *)
Theorem disconnect_leaves_no_mark :
  let st := perform_all [OpCreate "ROOM01" "A"; OpConnect 2 "ROOM01" "__proto__"]
              (state_of (constructor (mkRoom None [] ∅))) in
  exists r r',
    storage st = Some r ∧ key r = "ROOM01"%string
    ∧ sockets_of "__proto__" (sessions st) = [2]
    ∧ storage (state_of (perform (OpDisconnect 2 "__proto__") st)) = Some r'
    ∧ sockets_of "__proto__" (sessions (state_of (perform (OpDisconnect 2 "__proto__") st))) = []
    ∧ users r' = ["A"; "__proto__"]%string
    ∧ tracked r' "__proto__" = None
    ∧ isConnected_in r' "__proto__" = true.
Proof.
  cbv zeta. eexists _, _. split; [vm_compute; reflexivity|].
  repeat split; vm_compute; reflexivity.
Qed.

(** ** Connect on a room that was never created *)

(** C10, at an input where the code departs from it. On a room that was
    never created, a user named __proto__ opens a channel. The request is
    answered with 101, the session is registered, the name is added to
    [users], the record is written and broadcast and sent in an initialize
    message, all without a test of [key], as for any other name; but the
    record holds no connectedUsers entry for the user: the entry is not set
    to true. *)
Theorem connect_stores_no_entry :
  let x := handleSession 7 "NOROOM" "__proto__" blank_room in
  exists r',
    result_of (fetch (ReqUpgrade (Some "NOROOM"%string) (Some "__proto__"%string) 7) blank_room)
    = Ret (mkResponse 101 BNone)
    ∧ sessions (state_of x) = [(7, mkSession 7 "NOROOM" "__proto__")]
    ∧ storage (state_of x) = Some r'
    ∧ key r' = ""%string
    ∧ users r' = ["__proto__"%string]
    ∧ puts (trace_of x) = [r']
    ∧ EvBroadcast (MUserConnectionStatus "__proto__" true r') ∈ trace_of x
    ∧ EvSend 7 (MInitialize (Some r')) ∈ trace_of x
    ∧ tracked r' "__proto__" = None
    ∧ connectedUsers r' = Some ∅.
Proof.
  cbv zeta. eexists. split; [vm_compute; reflexivity|].
  split; [vm_compute; reflexivity|]. split; [vm_compute; reflexivity|].
  repeat split; try (vm_compute; reflexivity); vm_compute; set_solver.
Qed.

(** * Further properties of the room and of the worker in front of it *)

(** ** The state after each stimulus *)

Lemma getSettings_not_found (st : Room) :
  (forall r, storage st = Some r -> key r = ""%string) ->
  getSettings st = (Ret (json_error 404 "Room not found"), st, [EvGateEnter; EvGet; EvGateExit]).
Proof.
  intros Hst. unfold getSettings. run_handler.
  destruct (storage st) as [r|]; [rewrite (truthy_false _ (Hst r eq_refl))|]; reflexivity.
Qed.

Lemma onMessage_other (ws : WebSocket) (name : string) (st : Room) :
  onMessage ws name InOther st = (Ret tt, st, []).
Proof. reflexivity. Qed.

Lemma onMessage_malformed (ws : WebSocket) (name err : string) (st : Room) :
  onMessage ws name (InMalformed err) st
  = (if bool_decide (ws ∈ closedSockets st)
     then Throw "WebSocket send failed"%string else Ret tt,
     st, [sent (closedSockets st) ws (MError err)]).
Proof.
  unfold onMessage, try_catch, throw. rewrite ws_send_run.
  destruct (bool_decide (ws ∈ closedSockets st)); reflexivity.
Qed.

Lemma onMessage_null (ws : WebSocket) (name err : string) (st : Room) :
  onMessage ws name (InNull err) st
  = (if bool_decide (ws ∈ closedSockets st)
     then Throw "WebSocket send failed"%string else Ret tt,
     st, [sent (closedSockets st) ws (MError err)]).
Proof.
  unfold onMessage, try_catch, throw. rewrite ws_send_run.
  destruct (bool_decide (ws ∈ closedSockets st)); reflexivity.
Qed.

Lemma present_some (o : option string) :
  present o = true -> exists s, o = Some s ∧ s ≠ ""%string.
Proof.
  destruct o as [s|]; [|discriminate]. cbn. unfold truthy.
  destruct (decide (s = ""%string)) as [->|Hne]; [discriminate|]. intros _. by exists s.
Qed.

Lemma fetch_upgrade_run (room name : option string) (server : WebSocket) (st : Room) :
  present room = true -> present name = true ->
  state_of (fetch (ReqUpgrade room name server) st)
  = state_of (handleSession server (default ""%string room) (default ""%string name) st)
  ∧ trace_of (fetch (ReqUpgrade room name server) st)
    = trace_of (handleSession server (default ""%string room) (default ""%string name) st).
Proof.
  intros Hr Hn. unfold fetch. rewrite Hr, Hn. cbn [negb orb].
  unfold bind, ret, state_of, trace_of.
  destruct (handleSession server (default ""%string room) (default ""%string name) st)
    as [[[a|e] st1] t1]; cbn; by rewrite ?app_nil_r.
Qed.

Lemma fetch_upgrade_rejected (room name : option string) (server : WebSocket) (st : Room) :
  present room && present name = false ->
  fetch (ReqUpgrade room name server) st
  = (Ret (mkResponse 400 (BText "Missing room key or user name")), st, []).
Proof.
  intros H. unfold fetch.
  destruct (present room), (present name); try discriminate; reflexivity.
Qed.

Lemma react_state (s : stimulus) (st : Room) : state_of (react s st) = next s st.
Proof.
  destruct s as [req|ws name msg|ws name]; cbn [react next].
  - rewrite (proj1 (forget_run _ _)).
    destruct req as [room name server|rk creator|name| |name p| ].
    + destruct (present room && present name) eqn:Hp.
      * apply andb_true_iff in Hp as [Hr Hn].
        rewrite (proj1 (fetch_upgrade_run room name server st Hr Hn)).
        destruct (storage st) as [r|] eqn:Hst.
        -- by rewrite (handleSession_run _ _ _ _ _ Hst).
        -- by rewrite (handleSession_absent _ _ _ _ Hst).
      * by rewrite (fetch_upgrade_rejected room name server st Hp).
    + cbn [fetch]. destruct (storage st) as [r|] eqn:Hst.
      * destruct (decide (key r = ""%string)) as [Hk|Hk].
        -- rewrite initialize_fresh, (truthy_false _ Hk) by (intros; congruence). done.
        -- by rewrite (initialize_taken _ _ _ _ Hst Hk), (truthy_true _ Hk).
      * rewrite initialize_fresh by (intros; congruence). done.
    + cbn [fetch]. destruct (storage st) as [r|] eqn:Hst.
      * destruct (decide (key r = ""%string)) as [Hk|Hk].
        -- rewrite join_not_found, (truthy_false _ Hk) by (intros; congruence). done.
        -- by rewrite (join_run _ _ _ Hst Hk), (truthy_true _ Hk).
      * rewrite join_not_found by (intros; congruence). done.
    + cbn [fetch]. destruct (storage st) as [r|] eqn:Hst.
      * destruct (decide (key r = ""%string)) as [Hk|Hk].
        -- rewrite getSettings_not_found by (intros; congruence). done.
        -- by rewrite (getSettings_run _ _ Hst Hk).
      * rewrite getSettings_not_found by (intros; congruence). done.
    + cbn [fetch]. destruct (storage st) as [r|] eqn:Hst.
      * destruct (decide (key r = ""%string)) as [Hk|Hk].
        -- rewrite putSettings_not_found, (truthy_false _ Hk) by (intros; congruence). done.
        -- rewrite (truthy_true _ Hk). destruct (decide (moderator r = name)) as [Hm|Hm].
           ++ by rewrite (putSettings_run _ _ _ _ Hst Hk Hm), bool_decide_eq_true_2.
           ++ by rewrite (putSettings_forbidden _ _ _ _ Hst Hk Hm), bool_decide_eq_false_2.
      * rewrite putSettings_not_found by (intros; congruence). done.
    + reflexivity.
  - destruct msg as [err|p| |err].
    + by rewrite onMessage_malformed.
    + rewrite onMessage_update. destruct (storage st) as [r|] eqn:Hst.
      * destruct (decide (moderator r = name)) as [Hm|Hm].
        -- by rewrite (handleUpdateSettings_run _ _ _ _ Hst Hm), bool_decide_eq_true_2.
        -- rewrite handleUpdateSettings_dropped, bool_decide_eq_false_2
             by (try done; intros; congruence). done.
      * rewrite handleUpdateSettings_dropped by (intros; congruence). done.
    + reflexivity.
    + by rewrite onMessage_null.
  - destruct (stillConnected name (map_delete ws (sessions st))) eqn:Hs.
    + by rewrite (onClose_other_sessions _ _ _ Hs).
    + destruct (storage st) as [r|] eqn:Hst.
      * by rewrite (onClose_last _ _ _ _ Hs Hst).
      * by rewrite (onClose_absent _ _ _ Hs Hst).
Qed.

(** ** Invariants of the stored record *)

Lemma candidates_member (r : RoomData) (c : string) :
  c ∈ connected_candidates r -> c ∈ users r ∧ isConnected_in r c = true.
Proof.
  unfold connected_candidates. rewrite list_elem_of_In, List.filter_In, <- list_elem_of_In.
  done.
Qed.

Lemma tracked_insert (r : RoomData) (name u : string) (b : bool) :
  is_Some (tracked r u) -> is_Some (js_set name b (reconciled r) !! u).
Proof.
  intros Hu. apply js_set_is_Some. by rewrite tracked_reconciled.
Qed.

Lemma record_ok_created (rk creator : string) : record_ok (created rk creator).
Proof.
  unfold record_ok, created, tracked. cbn. split; [|split].
  - apply NoDup_singleton.
  - intros u ->%list_elem_of_singleton _. rewrite lookup_singleton_eq. eauto.
  - intros _. set_solver.
Qed.

Lemma record_ok_admitted (name : string) (r : RoomData) :
  record_ok r -> record_ok (admitted name r).
Proof.
  intros (Hnd & Hcov & Hmod). unfold record_ok, admitted, tracked. cbn.
  destruct (push_user_spec name (users r)) as [[Hin ->]|[Hin ->]]; (split; [|split]).
  - done.
  - intros u Hu Hp. by apply tracked_insert, Hcov.
  - done.
  - apply NoDup_app. repeat split; [done| |apply NoDup_singleton].
    intros x Hx ->%list_elem_of_singleton. done.
  - intros u [Hu| ->%list_elem_of_singleton]%elem_of_app Hp.
    + by apply tracked_insert, Hcov.
    + rewrite js_set_eq by (by left). eauto.
  - intros Hk. apply elem_of_app. left. by apply Hmod.
Qed.

Lemma record_ok_succeeded (name : string) (r : RoomData) :
  record_ok r -> record_ok (succeeded name r).
Proof.
  intros (Hnd & Hcov & Hmod).
  assert (record_ok (departed name r)) as Hdep.
  { unfold record_ok, departed, tracked. cbn. split; [done|split; [|done]].
    intros u Hu Hp. by apply tracked_insert, Hcov. }
  unfold succeeded. destruct (bool_decide (name = moderator r)); [|done].
  destruct (connected_candidates (departed name r)) as [|c cs] eqn:Hc; [done|].
  destruct Hdep as (Hnd' & Hcov' & _).
  unfold record_ok, with_moderator. cbn [users key moderator].
  split; [done|split; [exact Hcov'|]].
  intros _. apply (candidates_member (departed name r) c). rewrite Hc. set_solver.
Qed.

Lemma record_ok_updated (p : gmap string jsval) (r : RoomData) :
  record_ok r -> record_ok (updated p r).
Proof. intros H. exact H. Qed.

(** X1. The stored record keeps three properties under every request,
    message and close: no name occurs twice in [users]; every name in
    [users] other than __proto__ has an entry in connectedUsers; if [key]
    is not empty, the moderator is one of [users]. A room activated on empty storage has them,
    so every room driven from there has them. *)
Theorem record_ok_invariant :
  (forall s st,
     (forall r, storage st = Some r -> record_ok r) ->
     forall r', storage (state_of (react s st)) = Some r' -> record_ok r')
  ∧ (forall st l,
       storage st = None ->
       exists r', storage (react_all l (state_of (constructor st))) = Some r' ∧ record_ok r').
Proof.
  assert (forall s st,
     (forall r, storage st = Some r -> record_ok r) ->
     forall r', storage (state_of (react s st)) = Some r' -> record_ok r') as Hstep.
  { intros s st Hok r'. rewrite react_state.
    destruct s as [[room name server|rk creator|name| |name p| ]|ws name [err|p| |err]|ws name];
      cbn [next]; repeat
      match goal with
      | |- context [storage st] =>
          let Hst := fresh "Hst" in destruct (storage st) as [r|] eqn:Hst
      | |- context [if ?b then _ else _] => destruct b
      end;
      cbn [storage stored registered unregistered]; rewrite ?Hst;
      intros [= <-] || (intros Hr'; try discriminate);
      auto using record_ok_created, record_ok_admitted, record_ok_succeeded, record_ok_updated. }
  split; [exact Hstep|].
  intros st l Hst.
  assert (storage (state_of (constructor st)) = Some empty_record) as Hc.
  { unfold constructor. run_handler. rewrite Hst. reflexivity. }
  assert (record_ok empty_record) as He.
  { unfold record_ok, empty_record. cbn. repeat split; [constructor|set_solver|done]. }
  revert Hc He. generalize (state_of (constructor st)) empty_record. clear st Hst.
  induction l as [|s l IH]; intros st r Hs Hr; [by exists r|].
  cbn [react_all].
  assert (exists r1, storage (state_of (react s st)) = Some r1) as [r1 Hs1].
  { rewrite react_state.
    destruct s as [[room name server|rk creator|name| |name p| ]|ws name [err|p| |err]|ws name];
      cbn [next]; rewrite ?Hs; repeat
      match goal with
      | |- context [if ?b then _ else _] => destruct b
      end; cbn [storage stored registered unregistered]; rewrite ?Hs; eauto. }
  apply (IH _ r1 Hs1). apply (Hstep s st); [|exact Hs1].
  intros r0 Hr0. congruence.
Qed.

Lemma record_ok_invariant_abc :
  (forall r, storage abc_room = Some r -> record_ok r)
  ∧ record_ok (admitted "D" abc_record).
Proof.
  assert (forall r, storage abc_room = Some r -> record_ok r) as Hok.
  { intros r [= <-]. unfold record_ok, abc_record, tracked. cbn. repeat split.
    - repeat constructor; set_solver.
    - intros u Hu. repeat (apply elem_of_cons in Hu as [->|Hu]); [eauto..|].
      by apply elem_of_nil in Hu.
    - intros _. set_solver. }
  split; [exact Hok|].
  apply (proj1 record_ok_invariant (Request (ReqJoin "D")) abc_room Hok).
  rewrite react_state. reflexivity.
Defined.

(** ** Invariants of the registry *)

Lemma map_set_keys (ws : WebSocket) (s : SessionInfo) (l : list (WebSocket * SessionInfo)) :
  map fst (map_set ws s l)
  = if bool_decide (ws ∈ map fst l) then map fst l else map fst l ++ [ws].
Proof.
  induction l as [|[k v] l IH]; [done|]. cbn [map_set map fst].
  destruct (decide (k = ws)) as [->|Hne].
  - rewrite !bool_decide_eq_true_2 by set_solver. done.
  - rewrite (bool_decide_eq_false_2 (k = ws)) by done. cbn [map fst]. rewrite IH.
    destruct (decide (ws ∈ map fst l)) as [Hin|Hin].
    + rewrite !bool_decide_eq_true_2 by set_solver. done.
    + rewrite !bool_decide_eq_false_2 by set_solver. done.
Qed.

Lemma map_set_wf (ws : WebSocket) (rk name : string) (l : list (WebSocket * SessionInfo)) :
  registry_wf l -> registry_wf (map_set ws (mkSession ws rk name) l).
Proof.
  intros [Hnd Hall]. split.
  - rewrite map_set_keys. destruct (decide (ws ∈ map fst l)) as [Hin|Hin].
    + by rewrite bool_decide_eq_true_2.
    + rewrite bool_decide_eq_false_2 by done. apply NoDup_app. repeat split; [done| |apply NoDup_singleton].
      intros x Hx ->%list_elem_of_singleton. done.
  - clear Hnd. induction l as [|[k v] l IH]; cbn [map_set].
    + by repeat constructor.
    + apply Forall_cons in Hall as [Hk Hl].
      destruct (bool_decide (k = ws)); constructor; auto.
Qed.

Lemma map_delete_wf (ws : WebSocket) (l : list (WebSocket * SessionInfo)) :
  registry_wf l -> registry_wf (map_delete ws l).
Proof.
  intros [Hnd Hall]. split; [by apply map_delete_NoDup|].
  clear Hnd. induction l as [|[k v] l IH]; cbn [map_delete]; [done|].
  apply Forall_cons in Hall as [Hk Hl].
  destruct (bool_decide (k = ws)); [done|]. constructor; auto.
Qed.

Lemma map_delete_fresh (ws : WebSocket) (l : list (WebSocket * SessionInfo)) :
  ws ∉ map fst l -> map_delete ws l = l.
Proof.
  induction l as [|[k v] l IH]; [done|]. cbn [map fst map_delete]. intros Hn.
  rewrite bool_decide_eq_false_2 by set_solver. f_equal. apply IH. set_solver.
Qed.

Lemma map_delete_map_set (ws : WebSocket) (s : SessionInfo) (l : list (WebSocket * SessionInfo)) :
  ws ∉ map fst l -> map_delete ws (map_set ws s l) = l.
Proof.
  induction l as [|[k v] l IH]; cbn [map fst map_set map_delete]; intros Hn.
  - by rewrite bool_decide_eq_true_2.
  - rewrite (bool_decide_eq_false_2 (k = ws)) by set_solver. cbn [map_delete].
    rewrite (bool_decide_eq_false_2 (k = ws)) by set_solver. f_equal. apply IH. set_solver.
Qed.

(** X2. The registry holds at most one entry per socket, and each entry
    holds the socket it is filed under; every request, message and close
    keeps this, and activation starts from the empty registry. This is what
    the statements about the sessions of a user take for granted. *)
Theorem registry_wf_invariant :
  (forall s st, registry_wf (sessions st) -> registry_wf (sessions (state_of (react s st))))
  ∧ (forall st l, registry_wf (sessions (react_all l (state_of (constructor st))))).
Proof.
  assert (forall s st, registry_wf (sessions st) ->
            registry_wf (sessions (state_of (react s st)))) as Hstep.
  { intros s st Hwf. rewrite react_state.
    destruct s as [[room name server|rk creator|name| |name p| ]|ws name [err|p| |err]|ws name];
      cbn [next]; repeat
      match goal with
      | |- context [match storage st with _ => _ end] => destruct (storage st) as [r|]
      | |- context [if ?b then _ else _] => destruct b
      end;
      cbn [sessions stored registered unregistered];
      auto using map_set_wf, map_delete_wf. }
  split; [exact Hstep|].
  intros st l.
  assert (registry_wf (sessions (state_of (constructor st)))) as Hc.
  { unfold constructor. run_handler.
    destruct (storage st) as [r|]; [destruct (connectedUsers r)|];
      cbn; split; constructor. }
  revert Hc. generalize (state_of (constructor st)).
  induction l as [|s l IH]; intros st' Hwf; [done|].
  cbn [react_all]. apply IH. by apply Hstep.
Qed.

Lemma registry_wf_invariant_abc :
  registry_wf (sessions abc_room)
  ∧ registry_wf (sessions (state_of (react (Request (ReqUpgrade (Some "ROOM01"%string)
                                                      (Some "D"%string) 9)) abc_room))).
Proof.
  assert (registry_wf (sessions abc_room)) as Hwf.
  { split; cbn; [repeat constructor; set_solver | repeat constructor]. }
  split; [exact Hwf|]. by apply (proj1 registry_wf_invariant).
Defined.

(** ** Who changes which field *)

Lemma succeeded_fields (name : string) (r : RoomData) :
  settings (succeeded name r) = settings r
  ∧ (moderator (succeeded name r) ≠ moderator r ->
     name = moderator r
     ∧ moderator (succeeded name r) ∈ users r
     ∧ isConnected_in (succeeded name r) (moderator (succeeded name r)) = true).
Proof.
  unfold succeeded. destruct (decide (name = moderator r)) as [->|Hne].
  - rewrite bool_decide_eq_true_2 by done.
    destruct (connected_candidates (departed (moderator r) r)) as [|c cs] eqn:Hc; [done|].
    split; [done|]. intros _. split; [done|]. cbn [moderator with_moderator].
    change (isConnected_in (with_moderator c (departed (moderator r) r)) c)
      with (isConnected_in (departed (moderator r) r) c).
    apply (candidates_member (departed (moderator r) r) c). rewrite Hc. set_solver.
  - rewrite bool_decide_eq_false_2 by done. done.
Qed.

(** X3. On an initialized room, whatever the stimulus: [key] stays as it
    is; the settings change only through an update (request or message)
    whose sender is the moderator, and then to the merge; the moderator
    changes only through the close of the last session of the moderator, and
    then to a member of [users] whose entry is true, or who has no entry
    and bears a name that every object inherits; [users] changes only
    through a join or an upgrade request, by that name added at the end. *)
Theorem field_authority (s : stimulus) (st : Room) (r r' : RoomData) :
  storage st = Some r -> key r ≠ ""%string ->
  storage (state_of (react s st)) = Some r' ->
  key r' = key r
  ∧ (settings r' ≠ settings r ->
     exists p, settings r' = merge_settings (settings r) p
       ∧ (s = Request (ReqPutSettings (moderator r) p)
          ∨ exists ws, s = Message ws (moderator r) (InUpdateSettings p)))
  ∧ (moderator r' ≠ moderator r ->
     moderator r' ∈ users r
     ∧ (tracked r' (moderator r') = Some true
        ∨ (tracked r' (moderator r') = None ∧ inherited (moderator r') = true))
     ∧ exists ws, s = Close ws (moderator r)
         ∧ stillConnected (moderator r) (map_delete ws (sessions st)) = false)
  ∧ (users r' ≠ users r ->
     exists name, users r' = users r ++ [name]
       ∧ (s = Request (ReqJoin name)
          ∨ exists room server, s = Request (ReqUpgrade room (Some name) server))).
Proof.
  intros Hst Hk. rewrite react_state.
  assert (forall name, users (admitted name r) ≠ users r ->
            users (admitted name r) = users r ++ [name]) as Hadm.
  { intros name. cbn [users admitted].
    destruct (push_user_spec name (users r)) as [[_ ->]|[_ ->]]; done. }
  destruct s as [[room name server|rk creator|name| |name p| ]|ws name [err|p| |err]|ws name];
    cbn [next]; rewrite Hst, ?(truthy_true _ Hk); cbn [andb].
  - destruct (present room && present name) eqn:Hp;
      cbn [storage stored registered]; [|rewrite ?Hst; intros [= <-]; done].
    intros [= <-]. apply andb_true_iff in Hp as [_ Hn].
    destruct name as [name|]; [|discriminate]. cbn [default] in *. unfold id.
    repeat split; try done. intros Hu. exists name. split; [by apply Hadm|]. right. eauto.
  - rewrite ?Hst. intros [= <-]. done.
  - cbn [storage stored]. intros [= <-]. repeat split; try done.
    intros Hu. exists name. split; [by apply Hadm|]. by left.
  - rewrite ?Hst. intros [= <-]. done.
  - destruct (decide (moderator r = name)) as [<-|Hm].
    + rewrite bool_decide_eq_true_2 by done. cbn [storage stored]. intros [= <-].
      repeat split; try done. intros _. exists p. split; [done|]. by left.
    + rewrite bool_decide_eq_false_2 by done. rewrite ?Hst. intros [= <-]. done.
  - rewrite ?Hst. intros [= <-]. done.
  - rewrite ?Hst. intros [= <-]. done.
  - destruct (decide (moderator r = name)) as [<-|Hm].
    + rewrite bool_decide_eq_true_2 by done. cbn [storage stored]. intros [= <-].
      repeat split; try done. intros _. exists p. split; [done|]. right. eauto.
    + rewrite bool_decide_eq_false_2 by done. rewrite ?Hst. intros [= <-]. done.
  - rewrite ?Hst. intros [= <-]. done.
  - rewrite ?Hst. intros [= <-]. done.
  - destruct (stillConnected name (map_delete ws (sessions st))) eqn:Hs;
      cbn [storage stored unregistered]; [rewrite ?Hst; intros [= <-]; done|].
    intros [= <-]. destruct (succeeded_tracked name r) as (_ & Hu & Hkey).
    destruct (succeeded_fields name r) as [Hset Hmod].
    split; [done|]. split; [done|]. split; [|done].
    intros Hch. destruct (Hmod Hch) as (-> & Hin & Hcon).
    split; [exact Hin|]. split; [by apply isConnected_in_spec|]. eauto.
Qed.

Lemma field_authority_abc :
  (storage abc_room = Some abc_record ∧ key abc_record ≠ ""%string)
  ∧ forall r', storage (state_of (react (Message 2 "B" (InUpdateSettings x1_settings)) abc_room))
               = Some r' ->
      key r' = key abc_record.
Proof.
  assert (key abc_record ≠ ""%string) as Hk by discriminate.
  split; [done|]. intros r' Hr'.
  exact (proj1 (field_authority _ abc_room abc_record r' eq_refl Hk Hr')).
Defined.

(** ** After the moderator left *)

Lemma candidates_empty (r : RoomData) (u : string) :
  connected_candidates r = [] -> u ∈ users r -> isConnected_in r u = false.
Proof.
  unfold connected_candidates. intros Hc Hu.
  destruct (isConnected_in r u) eqn:E; [|done].
  assert (u ∈ List.filter (isConnected_in r) (users r)) as Hin.
  { apply list_elem_of_In, List.filter_In. by rewrite <- list_elem_of_In. }
  rewrite Hc in Hin. by apply elem_of_nil in Hin.
Qed.

Lemma isConnected_in_false_spec (r : RoomData) (u : string) :
  is_Some (connectedUsers r) -> isConnected_in r u = false ->
  tracked r u ≠ Some true ∧ (tracked r u = None -> inherited u = false).
Proof.
  unfold isConnected_in, tracked. intros [cu ->].
  destruct (cu !! u) as [[]|]; intros H; try discriminate; done.
Qed.

(** X4. After the close of the last session of the moderator, either the
    stored moderator is a member of [users] that reads as connected (its
    entry is true, or it has no entry and bears a name that every object
    inherits), and is another user than the one who left unless that one is
    named __proto__ and has no entry; or the moderator is the one who left
    and no member of [users] reads as connected. *)
Theorem moderator_after_close (st : Room) (r : RoomData) (ws : WebSocket) :
  storage st = Some r ->
  stillConnected (moderator r) (map_delete ws (sessions st)) = false ->
  exists r',
    storage (state_of (onClose ws (moderator r) st)) = Some r'
    ∧ ((moderator r' ∈ users r
        ∧ (tracked r' (moderator r') = Some true
           ∨ (tracked r' (moderator r') = None ∧ inherited (moderator r') = true))
        ∧ (moderator r ≠ "__proto__"%string ∨ is_Some (tracked r (moderator r)) ->
           moderator r' ≠ moderator r))
       ∨ (moderator r' = moderator r
          ∧ forall u, u ∈ users r ->
              tracked r' u ≠ Some true ∧ (tracked r' u = None -> inherited u = false))).
Proof.
  intros Hst Hs. exists (succeeded (moderator r) r).
  rewrite (onClose_last _ _ _ _ Hs Hst). split; [done|].
  unfold succeeded. rewrite bool_decide_eq_true_2 by done.
  destruct (connected_candidates (departed (moderator r) r)) as [|c cs] eqn:Hc.
  - right. split; [done|]. intros u Hu.
    apply isConnected_in_false_spec; [by eexists|]. by apply (candidates_empty _ u Hc).
  - left.
    destruct (candidates_member (departed (moderator r) r) c) as [Hin Hcon];
      [rewrite Hc; set_solver|].
    cbn [moderator with_moderator].
    split; [exact Hin|]. split; [by apply (isConnected_in_spec (departed (moderator r) r))|].
    intros Hown ->. unfold isConnected_in, departed in Hcon. cbn in Hcon.
    rewrite js_set_eq in Hcon; [done|].
    destruct Hown as [H|H]; [by left|right]. by rewrite tracked_reconciled.
Qed.

Lemma moderator_after_close_abc :
  (storage abc_room = Some abc_record
   ∧ stillConnected (moderator abc_record) (map_delete 1 (sessions abc_room)) = false)
  ∧ exists r', storage (state_of (onClose 1 (moderator abc_record) abc_room)) = Some r'
      ∧ (moderator r' ∈ users abc_record
         ∨ forall u, u ∈ users abc_record -> tracked r' u ≠ Some true).
Proof.
  split; [done|].
  destruct (moderator_after_close abc_room abc_record 1 eq_refl eq_refl) as (r' & Hs & H).
  exists r'. split; [exact Hs|]. destruct H as [(H & _)|(_ & H)]; [by left|right].
  intros u Hu. by destruct (H u Hu).
Defined.

(** ** Activation *)

(** X5. Activation empties the registry and leaves a stored record that has
    a connectedUsers map: the empty record when the storage was empty, else
    the stored record with its key, users, moderator and settings. It writes
    nothing when the record already had a map, so activating again changes
    nothing and writes nothing. *)
Theorem activation (st : Room) :
  let x := constructor st in
  result_of x = Ret tt
  ∧ sessions (state_of x) = []
  ∧ (storage st = None ->
     storage (state_of x) = Some empty_record ∧ puts (trace_of x) = [empty_record])
  ∧ (forall r, storage st = Some r ->
     exists r', storage (state_of x) = Some r'
       ∧ key r' = key r ∧ users r' = users r ∧ moderator r' = moderator r
       ∧ settings r' = settings r
       ∧ is_Some (connectedUsers r')
       ∧ (is_Some (connectedUsers r) -> r' = r ∧ puts (trace_of x) = []))
  ∧ state_of (constructor (state_of x)) = state_of x
  ∧ puts (trace_of (constructor (state_of x))) = [].
Proof.
  unfold constructor. run_handler.
  destruct (storage st) as [r|] eqn:Hst.
  - destruct (connectedUsers r) as [cu|] eqn:Hcu; cbn; rewrite ?Hst, ?Hcu; cbn;
      repeat split; try done.
    + intros r0 [= <-]. exists r. rewrite Hcu. repeat split; eauto.
    + intros r0 [= <-]. eexists. split; [reflexivity|]. cbn. rewrite Hcu.
      do 4 (split; [reflexivity|]). split; [eauto|]. intros [? ?]. discriminate.
  - cbn. repeat split; try done.
Qed.

(** ** Create *)

(** X6. On a missing or uninitialized record, create stores and returns a
    record with the given key, the creator as only user and as moderator,
    the creator connected, no other connectedUsers entry and empty settings.
    Whatever the record held before is gone, names added by earlier connects
    included. The registry is untouched and nothing is sent, even to
    sessions that are registered. *)
Theorem create_replaces_record (st : Room) (rk creator : string) :
  (forall r, storage st = Some r -> key r = ""%string) ->
  let x := initialize rk creator st in
  exists r',
    storage (state_of x) = Some r'
    ∧ result_of x = Ret (mkResponse 200 (BRoom r'))
    ∧ key r' = rk ∧ users r' = [creator] ∧ moderator r' = creator
    ∧ (forall u, tracked r' u = if bool_decide (u = creator) then Some true else None)
    ∧ settings r' = ∅
    ∧ sessions (state_of x) = sessions st
    ∧ trace_of x = [EvGateEnter; EvGet; EvPut r'; EvGateExit].
Proof.
  intros Hst x. subst x. rewrite (initialize_fresh rk creator st Hst).
  exists (created rk creator). repeat split.
  intros u. unfold tracked, created. cbn.
  destruct (decide (u = creator)) as [->|Hne].
  - by rewrite lookup_singleton_eq, bool_decide_eq_true_2.
  - rewrite lookup_singleton_ne, bool_decide_eq_false_2 by done. done.
Qed.

Lemma create_replaces_record_blank :
  (forall r, storage (state_of (handleSession 7 "NOROOM" "Z" blank_room)) = Some r ->
     key r = ""%string)
  ∧ exists r',
      storage (state_of (initialize "ROOM01" "A"
                           (state_of (handleSession 7 "NOROOM" "Z" blank_room)))) = Some r'
      ∧ users r' = ["A"%string].
Proof.
  assert (forall r, storage (state_of (handleSession 7 "NOROOM" "Z" blank_room)) = Some r ->
            key r = ""%string) as Hk.
  { intros r. rewrite (handleSession_run 7 "NOROOM" "Z" blank_room empty_record eq_refl).
    intros [= <-]. reflexivity. }
  split; [exact Hk|].
  destruct (create_replaces_record _ "ROOM01"%string "A"%string Hk)
    as (r' & Hs & _ & _ & Hu & _).
  by exists r'.
Defined.

(** X7. The create guard looks at the key only. A create with an empty room
    key stores a record that still counts as not created: a join is
    answered with 404, and a further create succeeds and replaces it. *)
Theorem create_empty_key (st : Room) (creator name rk2 creator2 : string) :
  (forall r, storage st = Some r -> key r = ""%string) ->
  let st1 := state_of (initialize "" creator st) in
  storage st1 = Some (created "" creator)
  ∧ result_of (join name st1) = Ret (json_error 404 "Room not found")
  ∧ state_of (join name st1) = st1
  ∧ result_of (initialize rk2 creator2 st1) = Ret (mkResponse 200 (BRoom (created rk2 creator2)))
  ∧ storage (state_of (initialize rk2 creator2 st1)) = Some (created rk2 creator2).
Proof.
  intros Hst st1.
  assert (st1 = stored (created "" creator) st) as Hst1
    by (subst st1; by rewrite (initialize_fresh "" creator st Hst)).
  clearbody st1. subst st1.
  assert (forall r, storage (stored (created "" creator) st) = Some r -> key r = ""%string) as Hk
    by (by intros r [= <-]).
  rewrite (join_not_found name _ Hk), (initialize_fresh rk2 creator2 _ Hk). done.
Qed.

Lemma create_empty_key_fresh :
  (forall r, storage (mkRoom None [] ∅) = Some r -> key r = ""%string)
  ∧ result_of (join "B" (state_of (initialize "" "A" (mkRoom None [] ∅))))
    = Ret (json_error 404 "Room not found").
Proof.
  assert (forall r, storage (mkRoom None [] ∅) = Some r -> key r = ""%string) as Hk
    by (intros r; cbn; discriminate).
  split; [exact Hk|].
  exact (proj1 (proj2 (create_empty_key (mkRoom None [] ∅) "A"%string "B"%string
                         "R"%string "C"%string Hk))).
Defined.

(** ** Rooms that were not created *)

(** X8. On a missing or uninitialized record, join, GET /settings and
    PUT /settings are answered with 404 "Room not found", for every name
    (the name in the moderator field included); the room is left as it is,
    nothing is written and nothing is sent. *)
Theorem not_found_first (st : Room) (name : string) (p : gmap string jsval) :
  (forall r, storage st = Some r -> key r = ""%string) ->
  join name st = (Ret (json_error 404 "Room not found"), st, [EvGateEnter; EvGet; EvGateExit])
  ∧ getSettings st
    = (Ret (json_error 404 "Room not found"), st, [EvGateEnter; EvGet; EvGateExit])
  ∧ putSettings name p st
    = (Ret (json_error 404 "Room not found"), st, [EvGateEnter; EvGet; EvGateExit]).
Proof.
  intros Hst.
  by rewrite (join_not_found name st Hst), (getSettings_not_found st Hst),
    (putSettings_not_found name p st Hst).
Qed.

Lemma not_found_first_blank :
  (forall r, storage blank_room = Some r -> key r = ""%string)
  ∧ result_of (putSettings "" x1_settings blank_room) = Ret (json_error 404 "Room not found").
Proof.
  assert (forall r, storage blank_room = Some r -> key r = ""%string) as Hk
    by (by intros r [= <-]).
  split; [exact Hk|].
  destruct (not_found_first blank_room ""%string x1_settings Hk) as (_ & _ & ->). reflexivity.
Defined.

Lemma activation_legacy :
  storage legacy_room = Some legacy_record
  ∧ exists r', storage (state_of (constructor legacy_room)) = Some r'
      ∧ users r' = users legacy_record ∧ is_Some (connectedUsers r').
Proof.
  split; [done|].
  destruct (activation legacy_room) as (_ & _ & _ & H & _).
  destruct (H legacy_record eq_refl) as (r' & Hs & _ & Hu & _ & _ & Hc & _).
  by exists r'.
Defined.

(** ** Messages and requests the room does not act on *)

(** X9. A message that does not parse leaves the room as it is; the only
    event is one send of an error message, with the text of the failure, to
    the socket the message came from. If that socket is open the listener
    returns normally; if its send throws, nothing catches it. A message
    that parses to null is answered in the same way, with the text of the
    TypeError. Any other message whose type is not updateSettings has no
    effect at all. *)
Theorem malformed_message_reply (ws : WebSocket) (name err : string) (st : Room) :
  state_of (onMessage ws name (InMalformed err) st) = st
  ∧ trace_of (onMessage ws name (InMalformed err) st) = [sent (closedSockets st) ws (MError err)]
  ∧ (ws ∉ closedSockets st ->
     result_of (onMessage ws name (InMalformed err) st) = Ret tt
     ∧ trace_of (onMessage ws name (InMalformed err) st) = [EvSend ws (MError err)])
  ∧ (ws ∈ closedSockets st ->
     exists e, result_of (onMessage ws name (InMalformed err) st) = Throw e)
  ∧ onMessage ws name (InNull err) st = onMessage ws name (InMalformed err) st
  ∧ onMessage ws name InOther st = (Ret tt, st, []).
Proof.
  rewrite onMessage_null, onMessage_malformed.
  unfold sent, result_of, state_of, trace_of. cbn [fst snd].
  do 2 (split; [reflexivity|]). split; [|split; [|split; reflexivity]].
  - intros Hopen. by rewrite bool_decide_eq_false_2.
  - intros Hclosed. rewrite bool_decide_eq_true_2 by done. eauto.
Qed.

Lemma malformed_message_reply_abc :
  (2 ∉ closedSockets abc_room)
  ∧ trace_of (onMessage 2 "B" (InMalformed "Unexpected token") abc_room)
    = [EvSend 2 (MError "Unexpected token")].
Proof.
  assert (2 ∉ closedSockets abc_room) as Hopen by (cbn; set_solver).
  split; [exact Hopen|].
  destruct (malformed_message_reply 2 "B"%string "Unexpected token"%string abc_room)
    as (_ & _ & H & _).
  exact (proj2 (H Hopen)).
Defined.

(** X10. An upgrade request that lacks the room key or the name, or gives an
    empty one, is answered with 400; no session is registered, the socket is
    not accepted and the record is not read. A request for no known route is
    answered with 404 in the same way. *)
Theorem fetch_rejects (room name : option string) (server : WebSocket) (st : Room) :
  (room = None ∨ room = Some ""%string ∨ name = None ∨ name = Some ""%string ->
   fetch (ReqUpgrade room name server) st
   = (Ret (mkResponse 400 (BText "Missing room key or user name")), st, []))
  ∧ fetch ReqOther st = (Ret (mkResponse 404 (BText "Not found")), st, []).
Proof.
  split; [|reflexivity]. intros H. apply fetch_upgrade_rejected.
  destruct H as [H|[H|[H|H]]]; subst; cbn; try done; by rewrite ?andb_false_r.
Qed.

Lemma fetch_rejects_empty_name :
  (Some "ROOM01"%string = None ∨ Some "ROOM01"%string = Some ""%string
   ∨ Some ""%string = None ∨ Some ""%string = Some ""%string)
  ∧ state_of (fetch (ReqUpgrade (Some "ROOM01"%string) (Some ""%string) 9) abc_room) = abc_room.
Proof.
  assert (Some "ROOM01"%string = None ∨ Some "ROOM01"%string = Some ""%string
          ∨ Some ""%string = None ∨ Some ""%string = Some ""%string) as H by auto.
  split; [exact H|].
  by rewrite (proj1 (fetch_rejects (Some "ROOM01"%string) (Some ""%string) 9 abc_room) H).
Defined.

(** X11. When the storage holds no record, handleSession still registers the
    session and accepts the socket; it writes nothing and broadcasts
    nothing, and the initialize message it sends carries no roomData. *)
Theorem connect_absent_record (ws : WebSocket) (rk name : string) (st : Room) :
  storage st = None ->
  let x := handleSession ws rk name st in
  storage (state_of x) = None
  ∧ (ws, mkSession ws rk name) ∈ sessions (state_of x)
  ∧ trace_of x
    = [EvAccept ws; EvGateEnter; EvGet; EvGateExit; EvGet;
       sent (closedSockets st) ws (MInitialize None)].
Proof.
  intros Hst x. subst x. rewrite (handleSession_absent ws rk name st Hst).
  unfold state_of, trace_of, registered. cbn [fst snd storage sessions].
  repeat split; [done|apply map_set_elem].
Qed.

Lemma connect_absent_record_fresh :
  storage (mkRoom None [] ∅) = None
  ∧ trace_of (handleSession 1 "ROOM01" "A" (mkRoom None [] ∅))
    = [EvAccept 1; EvGateEnter; EvGet; EvGateExit; EvGet; EvSend 1 (MInitialize None)].
Proof.
  split; [done|].
  destruct (connect_absent_record 1 "ROOM01"%string "A"%string (mkRoom None [] ∅) eq_refl)
    as (_ & _ & ->).
  reflexivity.
Defined.

(** ** Operations in a row *)

Lemma admitted_twice (name : string) (r : RoomData) :
  admitted name (admitted name r) = admitted name r.
Proof.
  unfold admitted. cbn [key users moderator settings reconciled connectedUsers].
  f_equal.
  - destruct (push_user_spec name (users r)) as [[Hin ->]|[Hin ->]].
    + unfold push_user. by rewrite bool_decide_eq_true_2.
    + unfold push_user. rewrite bool_decide_eq_true_2; set_solver.
  - by rewrite js_set_twice.
Qed.

Lemma map_set_twice (ws : WebSocket) (s : SessionInfo) (l : list (WebSocket * SessionInfo)) :
  map_set ws s (map_set ws s l) = map_set ws s l.
Proof.
  induction l as [|[k v] l IH]; cbn [map_set].
  - by rewrite bool_decide_eq_true_2.
  - destruct (decide (k = ws)) as [->|Hne].
    + rewrite bool_decide_eq_true_2 by done. cbn [map_set]. by rewrite bool_decide_eq_true_2.
    + rewrite bool_decide_eq_false_2 by done. cbn [map_set].
      rewrite bool_decide_eq_false_2 by done. by rewrite IH.
Qed.

(** X12. Admission is idempotent. A second join with the same name leaves
    the room exactly as the first did, and so does a connect of a socket that
    is registered already under that name; and the record is the same
    whether a name only joins, only connects, or joins and then connects. *)
Theorem admission_idempotent (st : Room) (r : RoomData) (ws : WebSocket) (rk name : string) :
  storage st = Some r ->
  state_of (handleSession ws rk name (state_of (handleSession ws rk name st)))
  = state_of (handleSession ws rk name st)
  ∧ storage (state_of (handleSession ws rk name st)) = Some (admitted name r)
  ∧ (key r ≠ ""%string ->
     state_of (join name (state_of (join name st))) = state_of (join name st)
     ∧ storage (state_of (join name st)) = Some (admitted name r)
     ∧ storage (state_of (handleSession ws rk name (state_of (join name st))))
       = Some (admitted name r)).
Proof.
  intros Hst.
  rewrite (handleSession_run ws rk name st r Hst). unfold state_of. cbn [fst snd].
  split; [|split; [reflexivity|]].
  - rewrite (handleSession_run ws rk name (stored (admitted name r) (registered ws rk name st))
               (admitted name r) eq_refl).
    unfold stored, registered. cbn [fst snd storage sessions closedSockets].
    by rewrite admitted_twice, map_set_twice.
  - intros Hk. rewrite (join_run name st r Hst Hk). cbn [fst snd].
    assert (key (admitted name r) ≠ ""%string) as Hk' by done.
    rewrite (join_run name (stored (admitted name r) st) (admitted name r) eq_refl Hk').
    rewrite (handleSession_run ws rk name (stored (admitted name r) st) (admitted name r) eq_refl).
    unfold stored. cbn [fst snd storage sessions closedSockets]. by rewrite admitted_twice.
Qed.

Lemma admission_idempotent_abc :
  (storage abc_room = Some abc_record ∧ key abc_record ≠ ""%string)
  ∧ state_of (join "D" (state_of (join "D" abc_room))) = state_of (join "D" abc_room).
Proof.
  assert (key abc_record ≠ ""%string) as Hk by discriminate.
  split; [done|].
  destruct (admission_idempotent abc_room abc_record 9 "ROOM01"%string "D"%string eq_refl)
    as (_ & _ & H).
  exact (proj1 (H Hk)).
Defined.

(** X13. Two settings updates by the moderator, [p] and then [q], leave the
    room as one update with [q] laid over [p] does. An update that changes
    no key (the empty one, or the same one again) leaves the record as it
    is, and is still written and broadcast. *)
Theorem settings_updates_compose (st : Room) (r : RoomData) (name : string)
    (p q : gmap string jsval) :
  storage st = Some r -> moderator r = name ->
  state_of (handleUpdateSettings name q (state_of (handleUpdateSettings name p st)))
  = state_of (handleUpdateSettings name (merge_settings p q) st)
  ∧ state_of (handleUpdateSettings name p (state_of (handleUpdateSettings name p st)))
    = state_of (handleUpdateSettings name p st)
  ∧ storage (state_of (handleUpdateSettings name ∅ st)) = Some r
  ∧ puts (trace_of (handleUpdateSettings name ∅ st)) = [r]
  ∧ EvBroadcast (MSettingsUpdated (settings r) r) ∈ trace_of (handleUpdateSettings name ∅ st).
Proof.
  intros Hst Hm.
  assert (forall p0, storage (stored (updated p0 r) st) = Some (updated p0 r)) as Hst' by done.
  assert (forall p0, moderator (updated p0 r) = name) as Hm' by done.
  assert (updated ∅ r = r) as Hid.
  { unfold updated, with_settings, merge_settings. rewrite (left_id_L ∅ (∪)). by destruct r. }
  rewrite !(handleUpdateSettings_run name _ st r Hst Hm).
  unfold state_of, trace_of. cbn [fst snd].
  rewrite !(handleUpdateSettings_run name _ _ _ (Hst' p) (Hm' p)). cbn [fst snd].
  unfold stored. cbn [sessions closedSockets].
  repeat split.
  - do 2 f_equal. unfold updated, with_settings, merge_settings. cbn. f_equal.
    by rewrite (assoc_L (∪)).
  - do 2 f_equal. unfold updated, with_settings, merge_settings. cbn. f_equal.
    by rewrite (assoc_L (∪)), (idemp (∪) p).
  - by rewrite Hid.
  - rewrite !puts_app, puts_deliver. unfold merge_settings. rewrite (left_id_L ∅ (∪)).
    change (updated ∅ r) with (with_settings (merge_settings (settings r) ∅) r).
    fold (updated ∅ r). rewrite Hid. reflexivity.
  - unfold merge_settings. rewrite (left_id_L ∅ (∪)). fold (merge_settings (settings r) ∅).
    fold (updated ∅ r). rewrite Hid. set_solver.
Qed.

Lemma settings_updates_compose_x1 :
  (storage x1_room = Some (with_settings x1_settings abc_record)
   ∧ moderator (with_settings x1_settings abc_record) = "A"%string)
  ∧ state_of (handleUpdateSettings "A" (<["x" := JNum 3]> ∅)
                (state_of (handleUpdateSettings "A" (<["y" := JNum 2]> ∅) x1_room)))
    = state_of (handleUpdateSettings "A"
                  (merge_settings (<["y" := JNum 2]> ∅) (<["x" := JNum 3]> ∅)) x1_room).
Proof.
  split; [done|].
  exact (proj1 (settings_updates_compose x1_room _ "A"%string (<["y" := JNum 2]> ∅)
                  (<["x" := JNum 3]> ∅) eq_refl eq_refl)).
Defined.

(** X14. A user without a session who connects on a new socket and whose
    socket then closes: the registry is back to what it was; the name stays
    in [users]; unless the name is __proto__ and had no entry, it is marked
    disconnected; the entries of the other names are those the connect left;
    unless the user is the moderator, the moderator is the same; key and
    settings are the same. *)
Theorem connect_close_roundtrip (st : Room) (r : RoomData) (ws : WebSocket) (rk name : string) :
  storage st = Some r ->
  ws ∉ map fst (sessions st) ->
  sockets_of name (sessions st) = [] ->
  let st1 := state_of (handleSession ws rk name st) in
  let st2 := state_of (onClose ws name st1) in
  sessions st2 = sessions st
  ∧ exists r2,
      storage st2 = Some r2
      ∧ name ∈ users r2
      ∧ (users r2 = users r ∨ users r2 = users r ++ [name])
      ∧ (name ≠ "__proto__"%string ∨ is_Some (tracked r name) -> tracked r2 name = Some false)
      ∧ (forall u, u ≠ name -> tracked r2 u = reconciled r !! u)
      ∧ (name ≠ moderator r -> moderator r2 = moderator r)
      ∧ key r2 = key r ∧ settings r2 = settings r.
Proof.
  intros Hst Hfresh Hnone st1 st2.
  assert (st1 = stored (admitted name r) (registered ws rk name st)) as ->
    by (subst st1; by rewrite (handleSession_run ws rk name st r Hst)).
  assert (map_delete ws (map_set ws (mkSession ws rk name) (sessions st)) = sessions st) as Hback
    by by apply map_delete_map_set.
  assert (stillConnected name (map_delete ws (sessions
            (stored (admitted name r) (registered ws rk name st)))) = false) as Hlast.
  { cbn [sessions stored registered]. by rewrite Hback, stillConnected_sockets, Hnone. }
  assert (st2 = stored (succeeded name (admitted name r))
                  (unregistered ws (stored (admitted name r) (registered ws rk name st)))) as ->
    by (subst st2; by rewrite (onClose_last ws name _ (admitted name r) Hlast eq_refl)).
  cbn [sessions storage stored unregistered registered].
  split; [exact Hback|]. exists (succeeded name (admitted name r)).
  destruct (succeeded_tracked name (admitted name r)) as (Ht & Hu & Hk).
  destruct (succeeded_fields name (admitted name r)) as [Hset Hmod].
  split; [done|]. rewrite Hu, Hk, Hset. cbn [users key settings admitted].
  split; [|split; [|split; [|split; [|split; [|done]]]]].
  - destruct (push_user_spec name (users r)) as [[Hin ->]|[Hin ->]]; set_solver.
  - destruct (push_user_spec name (users r)) as [[Hin ->]|[Hin ->]]; [by left|by right].
  - intros Hown. apply Ht. destruct Hown as [H|H]; [by left|right].
    unfold tracked, admitted. cbn [connectedUsers]. apply js_set_is_Some.
    by rewrite tracked_reconciled.
  - intros u Hne. unfold tracked. rewrite succeeded_map.
    cbn [reconciled admitted connectedUsers]. by rewrite !js_set_ne.
  - intros Hne. destruct (decide (moderator (succeeded name (admitted name r))
                                  = moderator (admitted name r))) as [Heq|Hch]; [exact Heq|].
    destruct (Hmod Hch) as [Hn _]. by destruct Hne.
Qed.

Lemma connect_close_roundtrip_abc :
  (storage abc_room = Some abc_record
   ∧ (9 ∉ map fst (sessions abc_room))
   ∧ sockets_of "D" (sessions abc_room) = [])
  ∧ sessions (state_of (onClose 9 "D" (state_of (handleSession 9 "ROOM01" "D" abc_room))))
    = sessions abc_room.
Proof.
  assert (9 ∉ map fst (sessions abc_room)) as Hfresh by (cbn; set_solver).
  split; [done|].
  exact (proj1 (connect_close_roundtrip abc_room abc_record 9 "ROOM01"%string "D"%string
                  eq_refl Hfresh eq_refl)).
Defined.

(** ** The gate and the payloads, for every stimulus *)

Ltac stimulus_cases s st :=
  destruct s as [[room name server|rk creator|name| |name p| ]|ws name [err|p| |err]|ws name];
  cbn [react]; rewrite ?(proj2 (forget_run _ _)), ?onMessage_update;
  [ destruct (present room && present name) eqn:Hp;
    [ apply andb_true_iff in Hp as [Hr Hn];
      rewrite (proj2 (fetch_upgrade_run room name server st Hr Hn));
      destruct (storage st) as [r|] eqn:Hst;
      [ rewrite (handleSession_run _ _ _ _ _ Hst)
      | rewrite (handleSession_absent _ _ _ _ Hst) ]
    | rewrite (fetch_upgrade_rejected room name server st Hp) ]
  | cbn [fetch]; destruct (storage st) as [r|] eqn:Hst;
    [ destruct (decide (key r = ""%string)) as [Hk|Hk];
      [ rewrite initialize_fresh by (intros; congruence)
      | rewrite (initialize_taken _ _ _ _ Hst Hk) ]
    | rewrite initialize_fresh by (intros; congruence) ]
  | cbn [fetch]; destruct (storage st) as [r|] eqn:Hst;
    [ destruct (decide (key r = ""%string)) as [Hk|Hk];
      [ rewrite join_not_found by (intros; congruence)
      | rewrite (join_run _ _ _ Hst Hk) ]
    | rewrite join_not_found by (intros; congruence) ]
  | cbn [fetch]; destruct (storage st) as [r|] eqn:Hst;
    [ destruct (decide (key r = ""%string)) as [Hk|Hk];
      [ rewrite getSettings_not_found by (intros; congruence)
      | rewrite (getSettings_run _ _ Hst Hk) ]
    | rewrite getSettings_not_found by (intros; congruence) ]
  | cbn [fetch]; destruct (storage st) as [r|] eqn:Hst;
    [ destruct (decide (key r = ""%string)) as [Hk|Hk];
      [ rewrite putSettings_not_found by (intros; congruence)
      | destruct (decide (moderator r = name)) as [Hm|Hm];
        [ rewrite (putSettings_run _ _ _ _ Hst Hk Hm)
        | rewrite (putSettings_forbidden _ _ _ _ Hst Hk Hm) ] ]
    | rewrite putSettings_not_found by (intros; congruence) ]
  | cbn [fetch]; unfold ret
  | rewrite onMessage_malformed
  | destruct (storage st) as [r|] eqn:Hst;
    [ destruct (decide (moderator r = name)) as [Hm|Hm];
      [ rewrite (handleUpdateSettings_run _ _ _ _ Hst Hm)
      | rewrite handleUpdateSettings_dropped by (intros; congruence) ]
    | rewrite handleUpdateSettings_dropped by (intros; congruence) ]
  | rewrite onMessage_other
  | rewrite onMessage_null
  | destruct (stillConnected name (map_delete ws (sessions st))) eqn:Hs;
    [ rewrite (onClose_other_sessions _ _ _ Hs)
    | destruct (storage st) as [r|] eqn:Hst;
      [ rewrite (onClose_last _ _ _ _ Hs Hst)
      | rewrite (onClose_absent _ _ _ Hs Hst) ] ] ];
  unfold trace_of; cbn [snd].

Lemma discipline_deliver (closed : gset WebSocket) (m : message)
    (l : list (WebSocket * SessionInfo)) (t : list event) (inside : bool) :
  gate_discipline inside (map (deliver closed m) l ++ t) = gate_discipline inside t.
Proof.
  induction l as [|s l IH]; [done|]. cbn [map app].
  unfold deliver at 1, sent. destruct (bool_decide _); cbn [gate_discipline]; exact IH.
Qed.

Lemma discipline_handover (name : string) (r : RoomData) (l : list (WebSocket * SessionInfo))
    (closed : gset WebSocket) (t : list event) :
  gate_discipline true (handover name r l closed ++ t) = gate_discipline true t.
Proof.
  unfold handover. destruct (bool_decide (name = moderator r)); [|done].
  destruct (connected_candidates (departed name r)) as [|c cs]; [done|].
  cbv zeta. rewrite <- app_assoc. cbn [app gate_discipline andb].
  by rewrite discipline_deliver.
Qed.

(** X15. In the trace of activation and of every request, message and close,
    the gate is entered only when free and left only when held, it is free
    again at the end, and every write of the record happens while it is
    held. *)
Theorem writes_inside_gate (st : Room) :
  gate_discipline false (trace_of (constructor st)) = true
  ∧ forall s, gate_discipline false (trace_of (react s st)) = true.
Proof.
  split.
  - unfold constructor. run_handler.
    destruct (storage st) as [r|]; [destruct (connectedUsers r)|]; reflexivity.
  - intros s. stimulus_cases s st;
      cbn [app gate_discipline negb andb];
      rewrite ?discipline_deliver, ?discipline_handover;
      cbn [app gate_discipline negb andb];
      rewrite ?discipline_deliver;
      cbn [app gate_discipline negb andb];
      try reflexivity;
      unfold sent; by destruct (bool_decide (_ ∈ closedSockets st)).
Qed.

Lemma payloads_deliver (closed : gset WebSocket) (m : message)
    (l : list (WebSocket * SessionInfo)) (t : list event) (cur : option RoomData) :
  fanned_out m = true -> carried m = cur ->
  fresh_payloads cur t -> fresh_payloads cur (map (deliver closed m) l ++ t).
Proof.
  intros Hm Hc Ht. induction l as [|s l IH]; [done|]. cbn [map app].
  unfold deliver at 1, sent.
  destruct (bool_decide _); cbn [fresh_payloads]; (split; [|exact IH]);
    destruct m; try discriminate; exact Hc.
Qed.

Lemma payloads_handover (name : string) (r : RoomData) (l : list (WebSocket * SessionInfo))
    (closed : gset WebSocket) :
  fresh_payloads (Some (departed name r)) (handover name r l closed ++ [EvGateExit]).
Proof.
  unfold handover. destruct (bool_decide (name = moderator r)); [|done].
  destruct (connected_candidates (departed name r)) as [|c cs]; [done|].
  cbv zeta. rewrite <- app_assoc. cbn [app fresh_payloads carried]. split; [done|].
  by apply payloads_deliver.
Qed.

(** X16. Every message a room broadcasts, and the initialize message it
    sends, carries as roomData the record that is stored at the moment of
    the send: the one read from the storage or the one just written. *)
Theorem payloads_are_current (s : stimulus) (st : Room) :
  fresh_payloads (storage st) (trace_of (react s st)).
Proof.
  stimulus_cases s st; cbn [app fresh_payloads carried];
    repeat first
      [ done
      | split; [done|]
      | apply payloads_deliver; [done|done|]
      | apply payloads_handover
      | progress cbn [app fresh_payloads carried]
      | progress (unfold sent; destruct (bool_decide (_ ∈ closedSockets st))) ].
Qed.

(** ** The worker in front of the rooms *)

Lemma present_default (o : option string) :
  present o = true -> default ""%string o ≠ ""%string ∧ o = Some (default ""%string o).
Proof.
  intros H. destruct (present_some o H) as (s & -> & Hs). done.
Qed.

(** X17. Whatever the worker hands to a room is complete: a create comes
    with the generated key and a non-empty creator and goes to the room id
    of that key; a join, a settings read and a settings update come with
    non-empty names and go to the room id of a non-empty key; an upgrade
    comes with both parameters non-empty and with the socket of the request.
    The worker never hands over a request the room has no route for. *)
Theorem router_forwards_complete (toLowerCase : string -> string) (generated : string)
    (server : WebSocket) (req : api_request) (roomId : string) (rq : request) :
  handleRequest toLowerCase generated server req = Ret (ToRoom roomId rq) ->
  match rq with
  | ReqInitialize rk creator =>
      rk = generated ∧ creator ≠ ""%string ∧ roomId = getRoomId toLowerCase generated
  | ReqJoin name =>
      name ≠ ""%string ∧ exists k, k ≠ ""%string ∧ roomId = getRoomId toLowerCase k
  | ReqGetSettings => exists k, k ≠ ""%string ∧ roomId = getRoomId toLowerCase k
  | ReqPutSettings name p =>
      name ≠ ""%string ∧ exists k, k ≠ ""%string ∧ roomId = getRoomId toLowerCase k
  | ReqUpgrade room name s =>
      s = server ∧ present room = true ∧ present name = true
      ∧ upgradeHeader req = Some "websocket"%string
      ∧ roomId = getRoomId toLowerCase (default ""%string room)
  | ReqOther => False
  end.
Proof.
  unfold handleRequest, handleApiRequest.
  destruct (String.prefix "/api/" (pathname req)).
  - destruct (bool_decide (string_drop 5 (pathname req) = "rooms"%string)
              && bool_decide (method req = "POST"%string)).
    { destruct (json_body req) as [err|name room sett]; [discriminate|].
      destruct (present name) eqn:Hn; cbn [negb]; [|discriminate].
      intros [= <- <-]. by destruct (present_default name Hn). }
    destruct (bool_decide (string_drop 5 (pathname req) = "rooms/join"%string)
              && bool_decide (method req = "POST"%string)).
    { destruct (json_body req) as [err|name room sett]; [discriminate|].
      destruct (present name) eqn:Hn, (present room) eqn:Hr; cbn [negb orb]; try discriminate.
      intros [= <- <-]. destruct (present_default name Hn), (present_default room Hr). eauto. }
    destruct (bool_decide (string_drop 5 (pathname req) = "rooms/settings"%string)
              && bool_decide (method req = "GET"%string)).
    { destruct (present (param_roomKey req)) eqn:Hr; cbn [negb]; [|discriminate].
      intros [= <- <-]. destruct (present_default _ Hr). eauto. }
    destruct (bool_decide (string_drop 5 (pathname req) = "rooms/settings"%string)
              && bool_decide (method req = "PUT"%string)); [|discriminate].
    destruct (json_body req) as [err|name room [p|]]; try discriminate.
    destruct (present name) eqn:Hn, (present room) eqn:Hr; cbn [negb orb]; try discriminate.
    intros [= <- <-]. destruct (present_default name Hn), (present_default room Hr). eauto.
  - destruct (bool_decide (pathname req = "/ws"%string)); [|discriminate].
    destruct (decide (upgradeHeader req = Some "websocket"%string)) as [Hu|Hu].
    + rewrite bool_decide_eq_true_2 by done. cbn [negb].
      destruct (present (param_room req)) eqn:Hr, (present (param_name req)) eqn:Hn;
        cbn [negb orb]; try discriminate.
      intros [= <- <-]. done.
    + rewrite bool_decide_eq_false_2 by done. discriminate.
Qed.

Lemma router_forwards_complete_join :
  handleRequest id "K7Q2ZD" 1
    (mkApiRequest "/api/rooms/join" "POST" None None None None
       (BodyJson (Some "B"%string) (Some "ROOM01"%string) None))
  = Ret (ToRoom "room-ROOM01" (ReqJoin "B"))
  ∧ "B"%string ≠ ""%string.
Proof.
  split; [reflexivity|].
  exact (proj1 (router_forwards_complete id "K7Q2ZD"%string 1
    (mkApiRequest "/api/rooms/join" "POST" None None None None
       (BodyJson (Some "B"%string) (Some "ROOM01"%string) None))
    "room-ROOM01"%string (ReqJoin "B") eq_refl)).
Defined.

Lemma routed_upgrade_inv (toLowerCase : string -> string) (generated : string)
    (server : WebSocket) (req : api_request) (roomId : string)
    (room name : option string) (s : WebSocket) :
  handleRequest toLowerCase generated server req = Ret (ToRoom roomId (ReqUpgrade room name s)) ->
  s = server ∧ present room = true ∧ present name = true.
Proof.
  unfold handleRequest, handleApiRequest.
  destruct (String.prefix "/api/" (pathname req)).
  - repeat match goal with
           | |- context [if ?b then _ else _] => destruct b
           | |- context [match json_body req with _ => _ end] => destruct (json_body req)
           | |- context [match ?o with Some _ => _ | None => _ end] => destruct o
           end; discriminate.
  - destruct (bool_decide (pathname req = "/ws"%string)); [|discriminate].
    destruct (bool_decide (upgradeHeader req = Some "websocket"%string)); [|discriminate].
    cbn [negb].
    destruct (present (param_room req)) eqn:Hr, (present (param_name req)) eqn:Hn;
      cbn [negb orb]; try discriminate.
    intros [= _ <- <- <-]. done.
Qed.

(** X18. An upgrade the worker hands over is never refused by the room: the
    room registers the session under the socket of the request, and, when
    that socket is open, answers 101. *)
Theorem routed_upgrade_accepted (toLowerCase : string -> string) (generated : string)
    (server : WebSocket) (req : api_request) (roomId : string)
    (room name : option string) (s : WebSocket) (st : Room) :
  handleRequest toLowerCase generated server req = Ret (ToRoom roomId (ReqUpgrade room name s)) ->
  (exists session,
     (server, session) ∈ sessions (state_of (fetch (ReqUpgrade room name s) st))
     ∧ webSocket session = server
     ∧ Some (userName session) = name)
  ∧ (server ∉ closedSockets st ->
     result_of (fetch (ReqUpgrade room name s) st) = Ret (mkResponse 101 BNone)).
Proof.
  intros Hroute.
  destruct (routed_upgrade_inv _ _ _ _ _ _ _ _ Hroute) as (-> & Hr & Hn).
  destruct (present_default name Hn) as [_ Hname].
  split.
  - exists (mkSession server (default ""%string room) (default ""%string name)).
    rewrite (proj1 (fetch_upgrade_run room name server st Hr Hn)).
    split; [|by split].
    destruct (storage st) as [r|] eqn:Hst.
    + rewrite (handleSession_run _ _ _ _ _ Hst). apply map_set_elem.
    + rewrite (handleSession_absent _ _ _ _ Hst). apply map_set_elem.
  - intros Hopen. unfold fetch. rewrite Hr, Hn. cbn [negb orb]. unfold bind.
    destruct (storage st) as [r|] eqn:Hst.
    + rewrite (handleSession_run _ _ _ _ _ Hst), bool_decide_eq_false_2 by done. done.
    + rewrite (handleSession_absent _ _ _ _ Hst), bool_decide_eq_false_2 by done. done.
Qed.

Lemma routed_upgrade_accepted_abc :
  (handleRequest id "K7Q2ZD" 9
     (mkApiRequest "/ws" "GET" (Some "websocket"%string) (Some "ROOM01"%string)
        (Some "D"%string) None (BodyUnreadable "no body"))
   = Ret (ToRoom "room-ROOM01" (ReqUpgrade (Some "ROOM01"%string) (Some "D"%string) 9))
   ∧ (9 ∉ closedSockets abc_room))
  ∧ result_of (fetch (ReqUpgrade (Some "ROOM01"%string) (Some "D"%string) 9) abc_room)
    = Ret (mkResponse 101 BNone).
Proof.
  assert (9 ∉ closedSockets abc_room) as Hopen by (cbn; set_solver).
  split; [split; [reflexivity|exact Hopen]|].
  exact (proj2 (routed_upgrade_accepted id "K7Q2ZD"%string 9
    (mkApiRequest "/ws" "GET" (Some "websocket"%string) (Some "ROOM01"%string)
       (Some "D"%string) None (BodyUnreadable "no body"))
    "room-ROOM01"%string (Some "ROOM01"%string) (Some "D"%string) 9 abc_room eq_refl) Hopen).
Defined.

Lemma route_create (toLowerCase : string -> string) (generated : string) (server : WebSocket)
    (req : api_request) (creator : string) (room : option string)
    (sett : option (gmap string jsval)) :
  pathname req = "/api/rooms"%string -> method req = "POST"%string ->
  json_body req = BodyJson (Some creator) room sett -> creator ≠ ""%string ->
  handleRequest toLowerCase generated server req
  = Ret (ToRoom (getRoomId toLowerCase generated) (ReqInitialize generated creator)).
Proof.
  intros Hp Hm Hb Hc. unfold handleRequest, handleApiRequest. rewrite Hp, Hm, Hb.
  cbn [String.prefix string_drop]. cbn [present]. rewrite (truthy_true _ Hc). reflexivity.
Qed.

Lemma route_join (toLowerCase : string -> string) (generated : string) (server : WebSocket)
    (req : api_request) (name k : string) (sett : option (gmap string jsval)) :
  pathname req = "/api/rooms/join"%string -> method req = "POST"%string ->
  json_body req = BodyJson (Some name) (Some k) sett ->
  name ≠ ""%string -> k ≠ ""%string ->
  handleRequest toLowerCase generated server req
  = Ret (ToRoom (getRoomId toLowerCase k) (ReqJoin name)).
Proof.
  intros Hp Hm Hb Hn Hk. unfold handleRequest, handleApiRequest. rewrite Hp, Hm, Hb.
  cbn [String.prefix string_drop]. cbn [present].
  rewrite (truthy_true _ Hn), (truthy_true _ Hk). reflexivity.
Qed.

(** X19. Create and join through the worker. A create request with a
    non-empty name is handed to the room of the generated key; on a room
    just activated on empty storage it is answered with the new record. A
    later join request whose key has the same lower case as the generated
    one is handed to the same room id, and is answered with a record that
    has the generated key, the creator as moderator, and the creator
    followed by the new name as users (the creator alone if the names are
    the same), the creator connected, and the new name connected too unless
    it is __proto__ and not the creator's. *)
Theorem api_create_then_join (toLowerCase : string -> string) (generated generated' : string)
    (server server' : WebSocket) (create_req join_req : api_request)
    (creator name k : string) (room : option string) (sett sett' : option (gmap string jsval))
    (st0 : Room) :
  pathname create_req = "/api/rooms"%string -> method create_req = "POST"%string ->
  json_body create_req = BodyJson (Some creator) room sett ->
  pathname join_req = "/api/rooms/join"%string -> method join_req = "POST"%string ->
  json_body join_req = BodyJson (Some name) (Some k) sett' ->
  creator ≠ ""%string -> name ≠ ""%string -> k ≠ ""%string -> generated ≠ ""%string ->
  toLowerCase k = toLowerCase generated ->
  storage st0 = None ->
  exists roomId rq1 rq2,
    handleRequest toLowerCase generated server create_req = Ret (ToRoom roomId rq1)
    ∧ handleRequest toLowerCase generated' server' join_req = Ret (ToRoom roomId rq2)
    ∧ result_of (fetch rq1 (state_of (constructor st0)))
      = Ret (mkResponse 200 (BRoom (created generated creator)))
    ∧ exists r2,
        result_of (fetch rq2 (state_of (fetch rq1 (state_of (constructor st0)))))
        = Ret (mkResponse 200 (BRoom r2))
        ∧ storage (state_of (fetch rq2 (state_of (fetch rq1 (state_of (constructor st0))))))
          = Some r2
        ∧ key r2 = generated ∧ moderator r2 = creator
        ∧ users r2 = (if bool_decide (name = creator) then [creator] else [creator; name])
        ∧ tracked r2 creator = Some true
        ∧ (name ≠ "__proto__"%string ∨ name = creator -> tracked r2 name = Some true).
Proof.
  intros Hp1 Hm1 Hb1 Hp2 Hm2 Hb2 Hc Hn Hk Hg Hlow Hst0.
  exists (getRoomId toLowerCase generated), (ReqInitialize generated creator), (ReqJoin name).
  split; [by apply (route_create _ _ _ _ creator room sett)|].
  split.
  { rewrite (route_join _ _ _ _ name k sett') by done. unfold getRoomId. by rewrite Hlow. }
  assert (state_of (constructor st0)
          = mkRoom (Some empty_record) [] (closedSockets st0)) as ->.
  { unfold constructor. run_handler. by rewrite Hst0. }
  cbn [fetch].
  rewrite initialize_fresh by (by intros r [= <-]).
  unfold result_of, state_of. cbn [fst snd].
  split; [done|]. exists (admitted name (created generated creator)).
  rewrite (join_run name (stored (created generated creator)
                            (mkRoom (Some empty_record) [] (closedSockets st0)))
             (created generated creator) eq_refl Hg).
  cbn [fst snd storage stored].
  repeat split.
  - cbn [users admitted created]. unfold push_user.
    destruct (decide (name = creator)) as [->|Hne].
    + rewrite !bool_decide_eq_true_2; set_solver.
    + rewrite !bool_decide_eq_false_2; set_solver.
  - unfold tracked, admitted, created, reconciled. cbn [connectedUsers].
    destruct (decide (name = creator)) as [->|Hne].
    + rewrite js_set_eq; [done|]. right. rewrite lookup_singleton_eq. eauto.
    + by rewrite js_set_ne, lookup_singleton_eq.
  - intros Hown. unfold tracked, admitted, created, reconciled. cbn [connectedUsers].
    apply js_set_eq. destruct Hown as [H| ->]; [by left|right].
    rewrite lookup_singleton_eq. eauto.
Qed.

Lemma api_create_then_join_case :
  exists roomId rq1 rq2,
    handleRequest id "ROOM01" 1
      (mkApiRequest "/api/rooms" "POST" None None None None (BodyJson (Some "A"%string) None None))
    = Ret (ToRoom roomId rq1)
    ∧ handleRequest id "ZZZZZZ" 2
        (mkApiRequest "/api/rooms/join" "POST" None None None None
           (BodyJson (Some "B"%string) (Some "ROOM01"%string) None))
      = Ret (ToRoom roomId rq2)
    ∧ exists r2,
        result_of (fetch rq2 (state_of (fetch rq1 (state_of (constructor (mkRoom None [] ∅))))))
        = Ret (mkResponse 200 (BRoom r2))
        ∧ users r2 = ["A"; "B"]%string.
Proof.
  destruct (api_create_then_join id "ROOM01"%string "ZZZZZZ"%string 1 2
    (mkApiRequest "/api/rooms" "POST" None None None None (BodyJson (Some "A"%string) None None))
    (mkApiRequest "/api/rooms/join" "POST" None None None None
       (BodyJson (Some "B"%string) (Some "ROOM01"%string) None))
    "A"%string "B"%string "ROOM01"%string None None None (mkRoom None [] ∅)
    eq_refl eq_refl eq_refl eq_refl eq_refl eq_refl
    ltac:(discriminate) ltac:(discriminate) ltac:(discriminate) ltac:(discriminate)
    eq_refl eq_refl) as (roomId & rq1 & rq2 & H1 & H2 & _ & r2 & H3 & _ & _ & _ & H4 & _).
  exists roomId, rq1, rq2. split; [exact H1|]. split; [exact H2|].
  exists r2. split; [exact H3|]. rewrite H4. reflexivity.
Defined.

(** ** Failover, the users list and connect, for names that no object inherits *)

(** X20. When the only session of the moderator closes, in a room where
    every member of [users] without a connectedUsers entry bears a name that
    no object inherits: the moderator is marked disconnected ([cu] is the map
    at that point); if some member of [users] has a true entry, the first one
    in [users] order becomes the moderator, the record is written a second
    time and a newModerator message carrying it is broadcast; if none has,
    the moderator field stays as it was and no newModerator message is
    broadcast. *)
Theorem failover_first_connected (st : Room) (r : RoomData) (ws : WebSocket)
    (cu : gmap string bool) :
  storage st = Some r ->
  NoDup (map fst (sessions st)) ->
  sockets_of (moderator r) (sessions st) = [ws] ->
  cu = js_set (moderator r) false (reconciled r) ->
  (forall u, u ∈ users r -> cu !! u = None -> inherited u = false) ->
  let x := onClose ws (moderator r) st in
  (forall before c after,
     users r = before ++ c :: after ->
     cu !! c = Some true ->
     (forall u, u ∈ before -> cu !! u ≠ Some true) ->
     let r' := mkRoomData (key r) (users r) c (Some cu) (settings r) in
     storage (state_of x) = Some r'
     ∧ puts (trace_of x) = [mkRoomData (key r) (users r) (moderator r) (Some cu) (settings r); r']
     ∧ EvBroadcast (MNewModerator c r') ∈ trace_of x)
  ∧ ((forall u, u ∈ users r -> cu !! u ≠ Some true) ->
     storage (state_of x)
     = Some (mkRoomData (key r) (users r) (moderator r) (Some cu) (settings r))
     ∧ List.filter newModerator_broadcast (trace_of x) = []).
Proof.
  intros Hst Hnd Hs -> Hown x. subst x.
  rewrite (onClose_last ws (moderator r) st r (last_session_closed _ _ _ Hnd Hs) Hst).
  unfold state_of, trace_of, succeeded, handover. cbn [fst snd storage stored].
  rewrite bool_decide_eq_true_2 by done.
  split.
  - intros before c after Hu Hc Hb.
    rewrite (candidates_first (departed (moderator r) r) before after c); cbn [users departed]; try done.
    + split; [done|]. split.
      * rewrite !puts_app, !puts_deliver. reflexivity.
      * set_solver.
    + apply isConnected_in_tracked. exact Hc.
    + intros u Hin. apply isConnected_in_false; [exact (Hb u Hin)|].
      apply Hown. rewrite Hu. set_solver.
  - intros Hnone.
    rewrite candidates_none.
    + split; [done|].
      rewrite !List.filter_app, filter_deliver by done. reflexivity.
    + intros u Hin. apply isConnected_in_false; [exact (Hnone u Hin)|]. by apply Hown.
Qed.

Lemma failover_first_connected_abc :
  (storage abc_room = Some abc_record
   ∧ NoDup (map fst (sessions abc_room))
   ∧ sockets_of "A" (sessions abc_room) = [1])
  ∧ (storage (state_of (onClose 1 "A" abc_room)) ≫= (fun r => Some (moderator r))) = Some "B"%string.
Proof.
  assert (NoDup (map fst (sessions abc_room))) as Hnd by (cbn; repeat constructor; set_solver).
  split; [done|].
  assert (forall u, u ∈ users abc_record ->
            js_set (moderator abc_record) false (reconciled abc_record) !! u = None ->
            inherited u = false) as Hown.
  { intros u Hu. cbn in Hu.
    repeat (apply elem_of_cons in Hu as [->|Hu]); try (by apply elem_of_nil in Hu);
      vm_compute; discriminate. }
  destruct (failover_first_connected abc_room abc_record 1 _ eq_refl Hnd eq_refl eq_refl Hown)
    as [H _].
  change (onClose 1 "A" abc_room) with (onClose 1 (moderator abc_record) abc_room).
  destruct (H ["A"%string] "B"%string ["C"%string] eq_refl) as (-> & _).
  - vm_compute. reflexivity.
  - intros u ->%list_elem_of_singleton. vm_compute. discriminate.
  - reflexivity.
Defined.

(** X21. On an initialized room, every operation (create, join, connect,
    disconnect, both settings updates, reading the settings) leaves a stored
    record whose [users] is the former list, or the former list with one
    name added at the end, which happens only to the name of a join or a
    connect that was not in the list; after a join or a connect the name is
    in the list. The close of the last session of a user keeps [users], and
    sets the entry of the user to false unless the name is __proto__ and
    has no entry. Over any sequence of operations the former list stays a
    prefix of the stored one. *)
Theorem users_grow_at_end (st : Room) (r : RoomData) :
  storage st = Some r -> key r ≠ ""%string ->
  (forall op, exists r',
     storage (state_of (perform op st)) = Some r'
     ∧ (users r' = users r
        ∨ exists name, newcomer op = Some name ∧ (name ∉ users r) ∧ users r' = users r ++ [name])
     ∧ (forall name, newcomer op = Some name -> name ∈ users r'))
  ∧ (forall ws name, stillConnected name (map_delete ws (sessions st)) = false ->
     exists r',
       storage (state_of (perform (OpDisconnect ws name) st)) = Some r'
       ∧ users r' = users r
       ∧ (name ≠ "__proto__"%string ∨ is_Some (tracked r name) -> tracked r' name = Some false))
  ∧ (forall ops, exists r' added,
       storage (perform_all ops st) = Some r' ∧ users r' = users r ++ added).
Proof.
  intros Hst Hk. split; [|split].
  - intros op. destruct (perform_users op st r Hst Hk) as (r' & Hs & _ & Hu & Hn).
    by exists r'.
  - intros ws name Hs. exists (succeeded name r). cbn [perform].
    rewrite (onClose_last _ _ _ _ Hs Hst).
    destruct (succeeded_tracked name r) as (Ht & Hu & _). done.
  - intros ops. revert st r Hst Hk.
    induction ops as [|op ops IH]; intros st r Hst Hk.
    + exists r, []. by rewrite app_nil_r.
    + destruct (perform_users op st r Hst Hk) as (r1 & Hs1 & Hk1 & Hu1 & _).
      destruct (IH (state_of (perform op st)) r1 Hs1 ltac:(congruence)) as (r' & added & Hs' & Hu').
      cbn [perform_all]. destruct Hu1 as [Hu1|(name & _ & _ & Hu1)]; rewrite Hu1 in Hu'.
      * by exists r', added.
      * exists r', ([name] ++ added). by rewrite app_assoc.
Qed.

Lemma users_grow_at_end_abc :
  (storage abc_room = Some abc_record ∧ key abc_record ≠ ""%string)
  ∧ exists r' added,
      storage (perform_all [OpJoin "D"; OpDisconnect 2 "B"; OpConnect 5 "ROOM01" "E";
                            OpJoin "B"] abc_room) = Some r'
      ∧ users r' = users abc_record ++ added.
Proof.
  assert (key abc_record ≠ ""%string) as Hk by discriminate.
  split; [done|].
  destruct (users_grow_at_end abc_room abc_record eq_refl Hk) as (_ & _ & H).
  exact (H [OpJoin "D"; OpDisconnect 2 "B"; OpConnect 5 "ROOM01" "E"; OpJoin "B"]).
Defined.

(** X22. handleSession does not look at [key]. Whatever the stored record,
    initialized or not, the session is registered, the name is in [users]
    afterwards (added at the end if it was not there), the record is
    written, a userConnectionStatus message carrying it is broadcast and the
    new socket is sent an initialize message with it; the upgrade request is
    answered with 101. The connectedUsers entry of the name is true, unless
    the name is __proto__ and had no entry. When [key] is empty, a join on
    the same room is answered with 404. *)
Theorem connect_ignores_key (st : Room) (r : RoomData) (ws : WebSocket)
    (rk name : string) :
  storage st = Some r -> ws ∉ closedSockets st ->
  let x := handleSession ws rk name st in
  result_of x = Ret tt
  ∧ (ws, mkSession ws rk name) ∈ sessions (state_of x)
  ∧ (exists r',
       storage (state_of x) = Some r'
       ∧ name ∈ users r'
       ∧ (users r' = users r ∨ ((name ∉ users r) ∧ users r' = users r ++ [name]))
       ∧ (name ≠ "__proto__"%string ∨ is_Some (tracked r name) -> tracked r' name = Some true)
       ∧ key r' = key r
       ∧ puts (trace_of x) = [r']
       ∧ EvBroadcast (MUserConnectionStatus name true r') ∈ trace_of x
       ∧ EvSend ws (MUserConnectionStatus name true r') ∈ trace_of x
       ∧ EvSend ws (MInitialize (Some r')) ∈ trace_of x)
  ∧ (rk ≠ ""%string -> name ≠ ""%string ->
     result_of (fetch (ReqUpgrade (Some rk) (Some name) ws) st) = Ret (mkResponse 101 BNone))
  ∧ (key r = ""%string ->
     result_of (join name st) = Ret (json_error 404 "Room not found")).
Proof.
  intros Hst Hopen x. subst x.
  assert (bool_decide (ws ∈ closedSockets st) = false) as Hb by by apply bool_decide_eq_false_2.
  split; [|split; [|split; [|split]]].
  - rewrite (handleSession_run ws rk name st r Hst), Hb. done.
  - rewrite (handleSession_run ws rk name st r Hst). apply map_set_elem.
  - exists (admitted name r). rewrite (handleSession_run ws rk name st r Hst).
    unfold state_of, trace_of. cbn [fst snd storage stored].
    split; [done|]. split; [|split; [|split; [|split; [done|split; [|split; [|split]]]]]].
    + cbn [users admitted]. destruct (push_user_spec name (users r)) as [[Hin ->]|[Hin ->]];
        set_solver.
    + cbn [users admitted]. destruct (push_user_spec name (users r)) as [[Hin ->]|[Hin ->]];
        [by left | by right].
    + intros Hown. unfold tracked, admitted. cbn [connectedUsers]. apply js_set_eq.
      destruct Hown as [H|H]; [by left|right]. by rewrite tracked_reconciled.
    + rewrite !puts_app, puts_deliver. unfold sent. rewrite Hb. reflexivity.
    + set_solver.
    + apply elem_of_app. right. apply elem_of_app. left.
      apply list_elem_of_fmap. exists (ws, mkSession ws rk name).
      split; [|apply map_set_elem]. unfold deliver, sent. cbn [snd webSocket]. by rewrite Hb.
    + unfold sent. rewrite Hb. set_solver.
  - intros Hrk Hname. unfold fetch, present. rewrite (truthy_true _ Hrk), (truthy_true _ Hname).
    cbn [negb orb default]. unfold bind, id.
    rewrite (handleSession_run ws rk name st r Hst), Hb. done.
  - intros Hk. rewrite join_not_found; [done|]. intros r0 Hr0. congruence.
Qed.

Lemma connect_ignores_key_blank :
  (storage blank_room = Some empty_record ∧ (7 ∉ closedSockets blank_room)
   ∧ key empty_record = ""%string)
  ∧ result_of (fetch (ReqUpgrade (Some "NOROOM"%string) (Some "Z"%string) 7) blank_room)
    = Ret (mkResponse 101 BNone)
  ∧ result_of (join "Z" blank_room) = Ret (json_error 404 "Room not found")
  ∧ (exists r', storage (state_of (handleSession 7 "NOROOM" "Z" blank_room)) = Some r'
       ∧ key r' = ""%string ∧ tracked r' "Z" = Some true).
Proof.
  assert (7 ∉ closedSockets blank_room) as Hopen by (cbn; set_solver).
  split; [done|].
  destruct (connect_ignores_key blank_room empty_record 7 "NOROOM"%string "Z"%string
              eq_refl Hopen) as (_ & _ & (r' & Hs & _ & _ & Ht & Hk & _) & Hfetch & Hjoin).
  split; [apply Hfetch; discriminate|]. split; [exact (Hjoin eq_refl)|].
  exists r'. split; [exact Hs|]. split; [exact Hk|]. apply Ht. left. discriminate.
Defined.
